(** * goterm/term: terminal discipline state, its SSH encoding, and PTY pairs

    A shallow embedding of package [term] of google/goterm.

    - [termios_linux.go] (ioctl wrappers, [GetPass], [OpenPTY], [Close],
      [PTSName], [PTSNumber]) is embedded from its source, with the kernel
      as an explicit state that every call threads.
    - The [Termios] type, the flag constants, [Raw], [Cook], [ToSSH] and
      [FromSSH] are declared in files that are not part of the sources at
      hand; they are modelled from the specification and from the uses the
      test files make of them, and each such definition says so. *)

From Stdlib Require Import ZArith Lia.
From stdpp Require Import base list strings gmap pretty.

Local Open Scope Z_scope.

(** ** Flag constants *)

(** Modelled from the spec: the flag constants are declared outside the
  sources at hand. The values are those of Linux [asm-generic/termbits.h],
  which the tests rely on ([CS8 = CSIZE], distinct single bits that can be
  added as well as or-ed). Octal in the C header, hexadecimal here. *)
Module Flags.
(* input modes *)
Definition IGNBRK : Z := 0x1.
Definition BRKINT : Z := 0x2.
Definition IGNPAR : Z := 0x4.
Definition PARMRK : Z := 0x8.
Definition ISTRIP : Z := 0x20.
Definition INLCR  : Z := 0x40.
Definition IGNCR  : Z := 0x80.
Definition ICRNL  : Z := 0x100.
Definition IXON   : Z := 0x400.
Definition IXOFF  : Z := 0x1000.
(* output modes *)
Definition OPOST  : Z := 0x1.
(* control modes *)
Definition CSIZE  : Z := 0x30.
Definition CS5    : Z := 0x0.
Definition CS6    : Z := 0x10.
Definition CS7    : Z := 0x20.
Definition CS8    : Z := 0x30.
Definition PARENB : Z := 0x100.
Definition PARODD : Z := 0x200.
(* local modes *)
Definition ISIG   : Z := 0x1.
Definition ICANON : Z := 0x2.
Definition ECHO   : Z := 0x8.
Definition ECHOE  : Z := 0x10.
Definition ECHOK  : Z := 0x20.
Definition ECHONL : Z := 0x40.
Definition IEXTEN : Z := 0x8000.
(* control character slots *)
Definition VINTR  : nat := 0.
Definition VQUIT  : nat := 1.
Definition VERASE : nat := 2.
Definition VKILL  : nat := 3.
Definition VEOF   : nat := 4.
Definition VTIME  : nat := 5.
Definition VMIN   : nat := 6.
Definition VSTART : nat := 8.
Definition VSTOP  : nat := 9.
Definition VSUSP  : nat := 10.
(* number of control character slots *)
Definition NCCS   : nat := 19.
End Flags.
Import Flags.

(** [termios_linux.go], lines 20-21: Go octal literals 0010017 and 0010000. *)
Definition CBAUD   : Z := 0x100f.
Definition CBAUDEX : Z := 0x1000.

(** ** Termios *)

(** Modelled from the spec: the window size record co-located with the
    terminal state (rows, columns, pixel width and height). *)
Record Winsize := mkWinsize {
  WsRow : Z; WsCol : Z; WsXpixel : Z; WsYpixel : Z
}.

(** Modelled from the spec: the [Termios] struct. The four flag words and the
    two speeds are [uint32], the control characters a fixed array of [NCCS]
    bytes; both are integers here, with the ranges in [wf_Termios]. *)
Record Termios := mkTermios {
  Iflag : Z; Oflag : Z; Cflag : Z; Lflag : Z;
  Cc : list Z;
  Ispeed : Z; Ospeed : Z;
  Wz : Winsize
}.

Definition uint32 (x : Z) : Prop := 0 <= x < 2 ^ 32.
Definition uint8 (x : Z) : Prop := 0 <= x < 256.

(** What the Go type guarantees of every value of type [Termios]. *)
Record wf_Termios (t : Termios) : Prop := {
  wf_Iflag : uint32 (Iflag t);
  wf_Oflag : uint32 (Oflag t);
  wf_Cflag : uint32 (Cflag t);
  wf_Lflag : uint32 (Lflag t);
  wf_Cc_len : length (Cc t) = NCCS;
  wf_Cc : Forall uint8 (Cc t);
  wf_Ispeed : uint32 (Ispeed t);
  wf_Ospeed : uint32 (Ospeed t)
}.

(** [var t Termios]: the zero value. *)
Definition zeroTermios : Termios :=
  mkTermios 0 0 0 0 (replicate NCCS 0) 0 0 (mkWinsize 0 0 0 0).

(** Go's [x &^ m] (and-not) and [x | m] on unsigned words. *)
Notation "x &^ m" := (Z.ldiff x m) (at level 40, left associativity).
Notation "x .| m" := (Z.lor x m) (at level 50, left associativity).
Notation "x .& m" := (Z.land x m) (at level 40, left associativity).

Definition rawIflagMask : Z :=
  IGNBRK .| BRKINT .| PARMRK .| ISTRIP .| INLCR .| IGNCR .| ICRNL .| IXON.
Definition rawLflagMask : Z := ECHO .| ECHONL .| ICANON .| ISIG .| IEXTEN.

(** Modelled from the spec: [Raw] is declared outside the sources at hand.
    It clears the break/parity/strip/newline-translation/flow-control input
    flags, output post-processing, the echo/canonical/signal/extended local
    flags and parity-enable, forces the character size to 8 bits, and makes a
    read return after 1 byte with no timeout. The flags are the ones
    [testraw] checks. *)
Definition Raw (t : Termios) : Termios :=
  {| Iflag := Iflag t &^ rawIflagMask;
     Oflag := Oflag t &^ OPOST;
     Cflag := (Cflag t &^ (CSIZE .| PARENB)) .| CS8;
     Lflag := Lflag t &^ rawLflagMask;
     Cc := <[VTIME := 0]> (<[VMIN := 1]> (Cc t));
     Ispeed := Ispeed t; Ospeed := Ospeed t; Wz := Wz t |}.

Definition cookIflagMask : Z := BRKINT .| IGNPAR .| ISTRIP .| ICRNL .| IXON.

(** Modelled from the spec: [Cook] is declared outside the sources at hand.
    It sets the break-interrupt, parity-check, strip, CR-to-NL and start/stop
    input flags, output post-processing, and the signal and canonical local
    flags: the flags [testcook] checks, [BRKINT] among them (the test adds
    it back after the SSH round trip because SSH has no opcode for it). *)
Definition Cook (t : Termios) : Termios :=
  {| Iflag := Iflag t .| cookIflagMask;
     Oflag := Oflag t .| OPOST;
     Cflag := Cflag t;
     Lflag := Lflag t .| (ISIG .| ICANON);
     Cc := Cc t;
     Ispeed := Ispeed t; Ospeed := Ospeed t; Wz := Wz t |}.

(** [testraw] and [testcook] of [termis_test.go], as boolean checks
    ([true] where the Go function returns a nil error). *)
Definition testraw (tr : Termios) : bool :=
  (tr.(Iflag) .& rawIflagMask =? 0)
  && (tr.(Oflag) .& OPOST =? 0)
  && (tr.(Lflag) .& rawLflagMask =? 0)
  && (tr.(Cflag) .& PARENB =? 0)
  && (tr.(Cflag) .& CSIZE =? CS8)
  && bool_decide (tr.(Cc) !! VMIN = Some 1 ∧ tr.(Cc) !! VTIME = Some 0).

Definition testcook (tr : Termios) : bool :=
  (tr.(Iflag) .& cookIflagMask =? BRKINT + IGNPAR + ISTRIP + ICRNL + IXON)
  && (tr.(Oflag) .& OPOST =? OPOST)
  && (tr.(Lflag) .& (ISIG .| ICANON) =? ISIG + ICANON).

(** ** SSH codec *)

(** Field updates of a [Termios] value. *)
Definition setIflag (v : Z) (t : Termios) : Termios :=
  mkTermios v (Oflag t) (Cflag t) (Lflag t) (Cc t) (Ispeed t) (Ospeed t) (Wz t).
Definition setOflag (v : Z) (t : Termios) : Termios :=
  mkTermios (Iflag t) v (Cflag t) (Lflag t) (Cc t) (Ispeed t) (Ospeed t) (Wz t).
Definition setCflag (v : Z) (t : Termios) : Termios :=
  mkTermios (Iflag t) (Oflag t) v (Lflag t) (Cc t) (Ispeed t) (Ospeed t) (Wz t).
Definition setLflag (v : Z) (t : Termios) : Termios :=
  mkTermios (Iflag t) (Oflag t) (Cflag t) v (Cc t) (Ispeed t) (Ospeed t) (Wz t).
Definition setCc (v : list Z) (t : Termios) : Termios :=
  mkTermios (Iflag t) (Oflag t) (Cflag t) (Lflag t) v (Ispeed t) (Ospeed t) (Wz t).
Definition setIspeed (v : Z) (t : Termios) : Termios :=
  mkTermios (Iflag t) (Oflag t) (Cflag t) (Lflag t) (Cc t) v (Ospeed t) (Wz t).
Definition setOspeed (v : Z) (t : Termios) : Termios :=
  mkTermios (Iflag t) (Oflag t) (Cflag t) (Lflag t) (Cc t) (Ispeed t) v (Wz t).

(** The terminal attribute an SSH opcode names: a control character slot,
    a flag (a mask in one of the four flag words), or a baud rate. *)
Inductive attr : Type :=
  | CcSlot (i : nat)
  | IflagBit (m : Z)
  | OflagBit (m : Z)
  | CflagBit (m : Z)
  | LflagBit (m : Z)
  | InSpeed
  | OutSpeed.

(** Modelled from the spec: the entries of the opcode table of the SSH
    codec, which is declared outside the sources at hand, that the SSH
    pty-request encoding defines (RFC 4254, section 8, whose opcode numbers
    these are). They are the ones the specification lists as covered, in
    its order, and IGNPAR and ISTRIP, which it requires (as [TestSSH] does)
    to survive the round trip of a cooked terminal. BRKINT has no opcode. *)
Definition standardModes : list (Z * attr) :=
  [ (1, CcSlot VINTR); (2, CcSlot VQUIT); (3, CcSlot VERASE);
    (4, CcSlot VKILL); (5, CcSlot VEOF); (8, CcSlot VSTART);
    (9, CcSlot VSTOP); (10, CcSlot VSUSP);
    (36, IflagBit ICRNL); (35, IflagBit IGNCR); (34, IflagBit INLCR);
    (38, IflagBit IXON); (40, IflagBit IXOFF);
    (30, IflagBit IGNPAR); (33, IflagBit ISTRIP);
    (50, LflagBit ISIG); (51, LflagBit ICANON); (53, LflagBit ECHO);
    (54, LflagBit ECHOE); (55, LflagBit ECHOK); (56, LflagBit ECHONL);
    (70, OflagBit OPOST);
    (90, CflagBit CS7); (91, CflagBit CS8);
    (92, CflagBit PARENB); (93, CflagBit PARODD);
    (128, InSpeed); (129, OutSpeed) ].

Fixpoint lookupOp (op : Z) (tbl : list (Z * attr)) : option attr :=
  match tbl with
  | [] => None
  | (o, a) :: tbl' => if o =? op then Some a else lookupOp op tbl'
  end.

(** A 32-bit value as four bytes, most significant first, and back. *)
Definition putUint32 (v : Z) : list Z :=
  [ (v / 2 ^ 24) mod 256; (v / 2 ^ 16) mod 256; (v / 2 ^ 8) mod 256; v mod 256 ].
Definition getUint32 (b0 b1 b2 b3 : Z) : Z :=
  b0 * 2 ^ 24 + b1 * 2 ^ 16 + b2 * 2 ^ 8 + b3.

(** One (opcode, value) pair on the wire. *)
Definition putMode (op v : Z) : list Z := op :: putUint32 v.

(** Modelled from the spec: what the codec does where neither the
    specification nor the sources at hand decide.
    [isSet word m] tells whether [ToSSH] takes the flag of mask [m] to be
    set in [word]. For a mask of one bit that is the bit. For CS8, the one
    mask of the table with two bits, the specification's "is set" reads as
    all of its bits ([word & m == m]) as well as any of them
    ([word & m != 0]).
    [opVMIN] and [opVTIME] are the opcodes of the control characters VMIN
    and VTIME. [TestSSH] wants a raw terminal to come back from the round
    trip as it was, control characters included, and [FromSSH] starts from
    the zero value, so the table has an entry for each of the two; the
    specification's list of opcodes, a subset of the table, names neither,
    and RFC 4254 has no opcode of that name. Any two opcodes that the
    other entries leave free will do. *)
Record Codec := mkCodec {
  isSet : Z -> Z -> bool;
  opVMIN : Z;
  opVTIME : Z
}.

(** The two readings of "the flag is set". *)
Definition allBits (word m : Z) : bool := word .& m =? m.
Definition anyBit (word m : Z) : bool := negb (word .& m =? 0).

(** What every reading has: a flag all of whose bits are in the word is
    set, a flag none of whose bits is in the word is not. And the opcodes of
    VMIN and VTIME are opcodes (a byte, not the sentinel) of their own. *)
Record wf_Codec (c : Codec) : Prop := {
  wf_isSet_all : forall w m, m ≠ 0 -> w .& m = m -> isSet c w m = true;
  wf_isSet_none : forall w m, m ≠ 0 -> w .& m = 0 -> isSet c w m = false;
  wf_opVMIN : 0 < opVMIN c < 256 ∧ lookupOp (opVMIN c) standardModes = None;
  wf_opVTIME : 0 < opVTIME c < 256 ∧ lookupOp (opVTIME c) standardModes = None;
  wf_ops : opVMIN c ≠ opVTIME c
}.

(** Modelled from the spec: the opcode table of the codec, the entries of
    the SSH encoding and those of VMIN and VTIME. *)
Definition opcodeTable (c : Codec) : list (Z * attr) :=
  standardModes ++ [ (opVMIN c, CcSlot VMIN); (opVTIME c, CcSlot VTIME) ].

(** What [ToSSH] emits for one table entry: control characters and baud
    rates always, a flag only when it is set, then with value 1. *)
Definition emitMode (c : Codec) (t : Termios) (e : Z * attr) : list Z :=
  let '(op, a) := e in
  match a with
  | CcSlot i => putMode op (default 0 (Cc t !! i))
  | IflagBit m => if isSet c (Iflag t) m then putMode op 1 else []
  | OflagBit m => if isSet c (Oflag t) m then putMode op 1 else []
  | CflagBit m => if isSet c (Cflag t) m then putMode op 1 else []
  | LflagBit m => if isSet c (Lflag t) m then putMode op 1 else []
  | InSpeed => putMode op (Ispeed t)
  | OutSpeed => putMode op (Ospeed t)
  end.

(** Modelled from the spec: [ToSSH] is declared outside the sources at hand.
    It walks the opcode table, emits the pairs of the attributes of [t], and
    ends the sequence with the opcode-0 sentinel. *)
Definition ToSSH (c : Codec) (t : Termios) : list Z :=
  flat_map (emitMode c t) (opcodeTable c) ++ [0].

(** The effect of one attribute on the value being built: a control
    character takes the low byte of the value, a flag has its mask set, a
    baud rate takes the value. The value of a flag pair is not looked at:
    [ToSSH] only writes the pairs of flags that are set, and the
    specification gives the value no meaning of its own. *)
Definition setAttr (a : attr) (v : Z) (t : Termios) : Termios :=
  match a with
  | CcSlot i => setCc (<[i := v mod 256]> (Cc t)) t
  | IflagBit m => setIflag (Iflag t .| m) t
  | OflagBit m => setOflag (Oflag t .| m) t
  | CflagBit m => setCflag (Cflag t .| m) t
  | LflagBit m => setLflag (Lflag t .| m) t
  | InSpeed => setIspeed v t
  | OutSpeed => setOspeed v t
  end.

(** A recognised opcode sets its attribute, any other is ignored. *)
Definition applyMode (c : Codec) (op v : Z) (t : Termios) : Termios :=
  match lookupOp op (opcodeTable c) with
  | Some a => setAttr a v t
  | None => t
  end.

(** Pairs are read until the sentinel, or until fewer than five bytes are
    left; what has been built so far is the result. *)
Fixpoint parseModes (c : Codec) (bs : list Z) (t : Termios) : Termios :=
  match bs with
  | op :: b0 :: b1 :: b2 :: b3 :: rest =>
      if op =? 0 then t
      else parseModes c rest (applyMode c op (getUint32 b0 b1 b2 b3) t)
  | _ => t
  end.

(** Modelled from the spec: [FromSSH] is declared outside the sources at
    hand. It builds the value from a zero-initialised [Termios]. *)
Definition FromSSH (c : Codec) (bs : list Z) : Termios :=
  parseModes c bs zeroTermios.

(** A sequence of complete pairs, without sentinel. *)
Definition encodeModes (ps : list (Z * Z)) : list Z :=
  flat_map (fun p => putMode p.1 p.2) ps.

(** The attributes of a list of pairs, applied in order. *)
Definition applyModes (c : Codec) (ps : list (Z * Z)) (t : Termios) : Termios :=
  foldl (fun acc p => applyMode c p.1 p.2 acc) t ps.

(** Two [Termios] values are compared field by field ([==] of Go). *)
#[global] Instance Winsize_eq_dec : EqDecision Winsize.
Proof. solve_decision. Defined.
#[global] Instance Termios_eq_dec : EqDecision Termios.
Proof. solve_decision. Defined.

(** [x += y] on a [uint32]. *)
Definition addUint32 (x y : Z) : Z := (x + y) mod 2 ^ 32.

(** [TestSSH] of the test file of the package, statement by statement:
    [true] where the Go test reports no failure. *)
Definition TestSSH (c : Codec) : bool :=
  let sTerm := Raw zeroTermios in
  let sTerm := setOspeed 300 (setIspeed 19200 sTerm) in
  let dTerm := FromSSH c (ToSSH c sTerm) in
  let sTerm := setCflag (Cflag sTerm .& (CS7 .| CS8 .| PARENB .| PARODD)) sTerm in
  let matches := bool_decide (sTerm = dTerm) in
  let sTerm := Raw sTerm in
  let dTerm := FromSSH c (ToSSH c sTerm) in
  let raw := testraw dTerm in
  let sTerm := Cook sTerm in
  let dTerm := FromSSH c (ToSSH c sTerm) in
  let dTerm := setIflag (addUint32 (Iflag dTerm) BRKINT) dTerm in
  let cooked := testcook dTerm in
  matches && raw && cooked.

(** ** The kernel, as the package sees it *)

(** [termios_linux.go], lines 14-19: the ioctl request codes. *)
Definition TCGETS     : Z := 0x5401.
Definition TCSETS     : Z := 0x5402.
Definition TIOCGWINSZ : Z := 0x5413.
Definition TIOCSWINSZ : Z := 0x5414.
Definition TIOCGPTN   : Z := 0x80045430.
Definition TIOCSPTLCK : Z := 0x40045431.

(** A Go [error]: a [syscall.Errno], an [errors.New] value, [os.ErrClosed],
    or the [*fs.PathError] in which package [os] wraps the error of an
    operation on a file, with the operation and the name of the file. *)
Inductive error : Type :=
  | Errno (e : Z)
  | ErrorString (s : string)
  | ErrClosed
  | PathError (op path : string) (err : error).

(** An [*os.File] that is not nil: its descriptor and the name it was opened
    with. The file counts as closed when its descriptor is not open in the
    process, which is the file's own state as long as the number has not
    been handed out again since. *)
Record File := mkFile { file_fd : nat; file_name : string }.

(** The [PTY] struct, as [OpenPTY], [Close] and [PTSNumber] use it: two
    [*os.File] fields, either of which may be nil. *)
Record PTY := mkPTY { Master : option File; Slave : option File }.

(** A system call made by the package. *)
Inductive event : Type :=
  | EvOpen (path : string) (errno : Z)
  | EvClose (fd : nat)
  | EvIoctl (req : Z) (fd : option nat)
  | EvRead (fd : nat)
  | EvWrite (fd : nat) (data : string).

(** The state of the kernel and what it is going to answer.
    - [k_fds]: the descriptors open in the process, each with the path it
      was opened at.
    - [k_open], [k_close], [k_ioctl], [k_write]: the errno the call reports
      (0: success) for a path, a descriptor, a request on a descriptor.
    - [k_attr]: what TCGETS leaves in the caller's struct for a descriptor.
    - [k_ptn]: what TIOCGPTN leaves in the caller's [uint].
    - [k_input]: the results of the one-byte reads to come, a byte or an
      errno each; a read past the end reports end of file.
    - [k_trace]: the calls made so far, latest first. *)
Record Kernel := mkKernel {
  k_fds : gmap nat string;
  k_open : string -> Z;
  k_close : nat -> Z;
  k_ioctl : Z -> nat -> Z;
  k_write : nat -> Z;
  k_attr : nat -> Termios;
  k_ptn : nat -> Z;
  k_input : list (Z + Z);
  k_trace : list event
}.

Definition withFds (fds : gmap nat string) (k : Kernel) : Kernel :=
  mkKernel fds (k_open k) (k_close k) (k_ioctl k) (k_write k) (k_attr k)
           (k_ptn k) (k_input k) (k_trace k).
Definition withAttr (a : nat -> Termios) (k : Kernel) : Kernel :=
  mkKernel (k_fds k) (k_open k) (k_close k) (k_ioctl k) (k_write k) a
           (k_ptn k) (k_input k) (k_trace k).
Definition withInput (i : list (Z + Z)) (k : Kernel) : Kernel :=
  mkKernel (k_fds k) (k_open k) (k_close k) (k_ioctl k) (k_write k) (k_attr k)
           (k_ptn k) i (k_trace k).
Definition logged (ev : event) (k : Kernel) : Kernel :=
  mkKernel (k_fds k) (k_open k) (k_close k) (k_ioctl k) (k_write k) (k_attr k)
           (k_ptn k) (k_input k) (ev :: k_trace k).

(** Calls into the kernel: a state monad over [Kernel]. *)
Definition Sys (A : Type) : Type := Kernel -> A * Kernel.
Definition ret {A} (a : A) : Sys A := fun k => (a, k).
Definition bind {A B} (m : Sys A) (f : A -> Sys B) : Sys B :=
  fun k => let (a, k') := m k in f a k'.
Notation "'let*' x ':=' m 'in' f" := (bind m (fun x => f))
  (at level 10, x pattern, m at level 100, f at level 200).

Definition EBADF : Z := 9.

(** The kernel hands out the lowest descriptor that is not in use. *)
Fixpoint lowestUnused (fuel n : nat) (used : gset nat) : nat :=
  match fuel with
  | O => n
  | S fuel' => if decide (n ∈ used) then lowestUnused fuel' (S n) used else n
  end.
Definition newFd (used : gset nat) : nat := lowestUnused (size used) 0 used.

(** [os.OpenFile]: a file on a new descriptor on success, otherwise the
    errno of open(2) in a [PathError]. *)
Definition OpenFile (name : string) : Sys (File + error) :=
  fun k =>
    let errno := k_open k name in
    let k1 := logged (EvOpen name errno) k in
    if errno =? 0 then
      let fd := newFd (dom (k_fds k)) in
      (inl (mkFile fd name), withFds (<[fd := name]> (k_fds k)) k1)
    else (inr (PathError "open" name (Errno errno)), k1).

(** [Close] of [os.File]: closing a closed file makes no call and is an
    error of its own; otherwise the descriptor is released, whatever
    close(2) reports. Either error comes in a [PathError]. *)
Definition FileClose (f : File) : Sys (option error) :=
  fun k =>
    let fd := file_fd f in
    match k_fds k !! fd with
    | None => (Some (PathError "close" (file_name f) ErrClosed), k)
    | Some _ =>
        let errno := k_close k fd in
        (if errno =? 0 then None
         else Some (PathError "close" (file_name f) (Errno errno)),
         withFds (delete fd (k_fds k)) (logged (EvClose fd) k))
    end.

(** [Fd] of [os.File]: a nil file has no valid descriptor. (Neither has a
    file that has been closed: the files passed to [Fd] here are open or
    nil.) *)
Definition Fd (f : option File) : option nat := file_fd <$> f.

(** [syscall.Syscall(SYS_IOCTL, fd, req, ptr)]: the errno. *)
Definition ioctl (fd : option nat) (req : Z) : Sys Z :=
  fun k =>
    (match fd with Some n => k_ioctl k req n | None => EBADF end,
     logged (EvIoctl req fd) k).

(** ** termios_linux.go *)

(** What TCGETS leaves in the caller's struct once the kernel has taken the
    attributes [t]: the kernel keeps the four flag words and the control
    characters; the speeds and the window size of the Go struct are no part
    of its termios, and stay as TCGETS left them before. *)
Definition kernelTakes (t old : Termios) : Termios :=
  mkTermios (Iflag t) (Oflag t) (Cflag t) (Lflag t) (Cc t)
            (Ispeed old) (Ospeed old) (Wz old).

(** [Set]: the kernel takes the attributes on success. *)
Definition TermiosSet (t : Termios) (file : File) : Sys (option error) :=
  let fd := file_fd file in
  let* errno := ioctl (Some fd) TCSETS in
  if errno =? 0 then
    fun k =>
      (None,
       withAttr (fun n => if decide (n = fd)
                          then kernelTakes t (k_attr k n) else k_attr k n) k)
  else ret (Some (Errno errno)).

(** [Attr]: [t] is what the ioctl left in the struct. *)
Definition Attr (file : File) : Sys (Termios * option error) :=
  let fd := file_fd file in
  let* errno := ioctl (Some fd) TCGETS in
  fun k =>
    let t := k_attr k fd in
    if errno =? 0 then
      let t := setIspeed (Ispeed t .& (CBAUD .| CBAUDEX)) t in
      let t := setOspeed (Ospeed t .& (CBAUD .| CBAUDEX)) t in
      ((t, None), k)
    else ((t, Some (Errno errno)), k).

Definition Isatty (file : File) : Sys bool :=
  let* r := Attr file in
  ret (match r.2 with None => true | Some _ => false end).

(** A [[]byte]: the backing array from the start of the slice on, and the
    length; the capacity is the length of the array. *)
Record Slice := mkSlice { arr : list Z; len : nat }.
Definition cap (s : Slice) : nat := length (arr s).

(** [s[:k]]: out of range, hence a panic, when [k] exceeds the capacity. *)
Definition sliceTo (s : Slice) (k : nat) : option Slice :=
  if (k <=? cap s)%nat then Some (mkSlice (arr s) k) else None.

(** [s[i] = v] for [i] within the length. *)
Definition store (s : Slice) (i : nat) (v : Z) : Slice :=
  mkSlice (<[i := v]> (arr s)) (len s).

(** [clearbuf]: [for i := range b { b[i] = 0 }]; the result is the backing
    array, which the caller's slice shares. *)
Definition clearbuf (b : Slice) : list Z :=
  foldl (fun a i => <[i := 0]> a) (arr b) (seq 0 (len b)).

(** [f.Write([]byte(prompt))]. *)
Definition FileWrite (f : File) (data : string) : Sys (option error) :=
  fun k =>
    let errno := k_write k (file_fd f) in
    (if errno =? 0 then None
     else Some (PathError "write" (file_name f) (Errno errno)),
     logged (EvWrite (file_fd f) data) k).

(** [f.Read(b)] with [len(b) = 1]: the byte read, or the error ([io.EOF]
    at the end of the input). *)
Definition FileRead (f : File) : Sys (Z + error) :=
  fun k =>
    let k1 := logged (EvRead (file_fd f)) k in
    match k_input k with
    | [] => (inr (ErrorString "EOF"), k1)
    | inl c :: rest => (inl c, withInput rest k1)
    | inr e :: rest =>
        (inr (PathError "read" (file_name f) (Errno e)), withInput rest k1)
    end.

(** How a call ends: it returns, or it panics. *)
Inductive outcome (A : Type) : Type :=
  | Returned (a : A)
  | Panicked (msg : string).
Arguments Returned {A} a.
Arguments Panicked {A} msg.

(** How the read loop of [GetPass] ends: at a line terminator with [i]
    bytes stored, with the buffer full, or in a slice expression that is
    out of range. *)
Inductive loopEnd : Type :=
  | Line (i : nat)
  | Full (i : nat)
  | OutOfRange.

(** The loop [for ; i < len(pbuf); i++] of [GetPass], [n] iterations from
    the end. [b[0]] is 0 at the start of every iteration. A failed read
    clears [pbuf[:i+1]] and goes on with [b[0] = 0]. *)
Fixpoint readLoop (n i : nat) (f : File) (pbuf : Slice) : Sys (loopEnd * Slice) :=
  match n with
  | O => ret (Full i, pbuf)
  | S n' =>
      let* r := FileRead f in
      match r with
      | inl c =>
          if (c =? 10) || (c =? 13) then ret (Line i, pbuf)
          else readLoop n' (S i) f (store pbuf i c)
      | inr _ =>
          match sliceTo pbuf (i + 1) with
          | None => ret (OutOfRange, pbuf)
          | Some s =>
              let pbuf := mkSlice (clearbuf s) (len pbuf) in
              readLoop n' (S i) f (store pbuf i 0)
          end
      end
  end.

(** [GetPass]: the result, or a panic, and the caller's buffer afterwards.
    The deferred [t.Set(f)] runs on every way out after the [defer]. *)
Definition GetPass (prompt : string) (f : File) (pbuf : Slice)
  : Sys (outcome (option (list Z) * option error) * Slice) :=
  let* r := Attr f in
  let '(t, err) := r in
  match err with
  | Some e => ret (Returned (None, Some e), pbuf)
  | None =>
      let noecho := setLflag (Lflag t &^ ECHO) t in
      let* err := TermiosSet noecho f in
      match err with
      | Some e =>
          let* _ := TermiosSet t f in ret (Returned (None, Some e), pbuf)
      | None =>
          let* err := FileWrite f prompt in
          match err with
          | Some e =>
              let* _ := TermiosSet t f in ret (Returned (None, Some e), pbuf)
          | None =>
              let* r := readLoop (len pbuf) 0 f pbuf in
              let '(e, pbuf) := r in
              match e with
              | Line i =>
                  let* _ := TermiosSet t f in
                  ret (Returned (Some (take i (arr pbuf)), None), pbuf)
              | OutOfRange =>
                  let* _ := TermiosSet t f in
                  ret (Panicked "slice bounds out of range", pbuf)
              | Full i =>
                  match sliceTo pbuf (i + 1) with
                  | None =>
                      let* _ := TermiosSet t f in
                      ret (Panicked "slice bounds out of range", pbuf)
                  | Some s =>
                      let pbuf := mkSlice (clearbuf s) (len pbuf) in
                      let* _ := TermiosSet t f in
                      ret (Returned
                             (None, Some (ErrorString "ran out of bufferspace")),
                           pbuf)
                  end
              end
          end
      end
  end.

(** [uint] to [int] on a 64-bit platform. *)
Definition int_of_uint (n : Z) : Z :=
  if n <? 2 ^ 63 then n else n - 2 ^ 64.

(** [strconv.Itoa]: the decimal rendering, with a sign when negative. *)
Definition Itoa (n : Z) : string := pretty n.

(** [PTSNumber]. *)
Definition PTSNumber (p : PTY) : Sys (Z * option error) :=
  let* errno := ioctl (Fd (Master p)) TIOCGPTN in
  fun k =>
    if errno =? 0 then
      ((match Fd (Master p) with Some fd => k_ptn k fd | None => 0 end, None), k)
    else ((0, Some (Errno errno)), k).

(** [PTSName]. *)
Definition PTSName (p : PTY) : Sys (string * option error) :=
  let* r := PTSNumber p in
  let '(n, err) := r in
  match err with
  | Some e => ret (""%string, Some e)
  | None => ret ("/dev/pts/" +:+ Itoa (int_of_uint n), None)
  end.

(** [OpenPTY]. *)
Definition OpenPTY : Sys (option PTY * option error) :=
  let* r := OpenFile "/dev/ptmx" in
  match r with
  | inr err => ret (None, Some err)
  | inl master =>
      let* errno := ioctl (Fd (Some master)) TIOCSPTLCK in
      if negb (errno =? 0) then
        let* _ := FileClose master in ret (None, Some (Errno errno))
      else
        let pty := mkPTY (Some master) None in
        let* r := PTSName pty in
        let '(slaveStr, err) := r in
        match err with
        | Some e => let* _ := FileClose master in ret (None, Some e)
        | None =>
            let* r := OpenFile slaveStr in
            match r with
            | inr e => let* _ := FileClose master in ret (None, Some e)
            | inl slave => ret (Some (mkPTY (Master pty) (Some slave)), None)
            end
        end
  end.

(** [strings.Join]. *)
Fixpoint Join (elems : list string) (sep : string) : string :=
  match elems with
  | [] => ""
  | [e] => e
  | e :: rest => e +:+ sep +:+ Join rest sep
  end.

Section ErrorText.
(** The text [syscall.Errno.Error] gives an errno: a table of the Go
    runtime, outside this package. *)
Variable strerror : Z -> string.

(** The [Error] method. *)
Fixpoint Error (e : error) : string :=
  match e with
  | Errno n => strerror n
  | ErrorString s => s
  | ErrClosed => "file already closed"
  | PathError op path err => op +:+ " " +:+ path +:+ ": " +:+ Error err
  end.

(** [Close] of [PTY]. *)
Definition Close (p : PTY) : Sys (option error) :=
  let* slaveErr := match Slave p with
                   | Some f => FileClose f
                   | None => ret (Some (ErrorString "Slave FD nil"))
                   end in
  let* masterErr := match Master p with
                    | Some f => FileClose f
                    | None => ret (Some (ErrorString "Master FD nil"))
                    end in
  match slaveErr, masterErr with
  | None, None => ret None
  | _, _ =>
      let errs := [] in
      let errs := match slaveErr with
                  | Some e => errs ++ ["Slave: " +:+ Error e]
                  | None => errs
                  end in
      let errs := match masterErr with
                  | Some e => errs ++ ["Master: " +:+ Error e]
                  | None => errs
                  end in
      ret (Some (ErrorString (Join errs " ")))
  end.
End ErrorText.

(** ** Definitions for the statements about the SSH codec *)

Definition validMode (p : Z * Z) : Prop := p.1 ≠ 0 ∧ uint32 p.2.

(** What a round trip leaves of one flag word: the masks of the table whose
    flag is set in [word], or-ed onto [acc]. *)
Definition keptFlags (c : Codec) (sel : attr -> option Z) (word : Z)
    (tbl : list (Z * attr)) (acc : Z) : Z :=
  foldl (fun a e => match sel e.2 with
                    | Some m => if isSet c word m then a .| m else a
                    | None => a
                    end) acc tbl.

(** What a round trip leaves of the control characters. *)
Definition keptCc (cc : list Z) (tbl : list (Z * attr)) (acc : list Z) : list Z :=
  foldl (fun c e => match e.2 with
                    | CcSlot i => <[i := default 0 (cc !! i) mod 256]> c
                    | _ => c
                    end) acc tbl.

Definition keptSpeed (sel : attr -> bool) (speed : Z)
    (tbl : list (Z * attr)) (acc : Z) : Z :=
  foldl (fun a e => if sel e.2 then speed else a) acc tbl.

Definition selI (a : attr) := match a with IflagBit m => Some m | _ => None end.
Definition selO (a : attr) := match a with OflagBit m => Some m | _ => None end.
Definition selC (a : attr) := match a with CflagBit m => Some m | _ => None end.
Definition selL (a : attr) := match a with LflagBit m => Some m | _ => None end.
Definition selIn (a : attr) := match a with InSpeed => true | _ => false end.
Definition selOut (a : attr) := match a with OutSpeed => true | _ => false end.

(** An entry of a table that [FromSSH] resolves to the same attribute. *)
Definition resolves (c : Codec) (e : Z * attr) : Prop :=
  e.1 ≠ 0 ∧ lookupOp e.1 (opcodeTable c) = Some e.2.

(** A mask of one bit. *)
Definition singleBit (m : Z) : Prop := exists k, 0 <= k ∧ m = 2 ^ k.

(** The masks a table has for one flag word, or-ed together. *)
Definition maskOf (sel : attr -> option Z) (tbl : list (Z * attr)) : Z :=
  foldr (fun e M => match sel e.2 with Some m => m .| M | None => M end) 0 tbl.

(** The control characters of the opcode table. *)
Definition tableSlots : list nat :=
  [VINTR; VQUIT; VERASE; VKILL; VEOF; VTIME; VMIN; VSTART; VSTOP; VSUSP].


(** The codecs of the two readings, with 100 and 101, which RFC 4254 leaves
    unassigned, for VMIN and VTIME. *)
Definition codecAll : Codec := mkCodec allBits 100 101.
Definition codecAny : Codec := mkCodec anyBit 100 101.

(** A terminal at 7 bits with odd parity, 19200 baud in, 300 out. *)
Definition sevenBitTermios : Termios :=
  mkTermios (ICRNL .| IXON) OPOST (CS7 .| PARENB .| PARODD .| 0x80)
            (ISIG .| ICANON .| ECHO)
            [3; 28; 127; 21; 4; 0; 1; 0; 17; 19; 26; 0; 18; 15; 23; 22; 0; 0; 0]
            19200 300 (mkWinsize 24 80 0 0).


(** The terminal that is at its zero value but for a character size of 6
    bits. *)
Definition sixBitTermios : Termios := setCflag CS6 zeroTermios.

(** ** Definitions for the statements about the kernel calls *)

(** A process with a terminal on descriptor 0, whose kernel answers every
    call with success; PTY number 7 is the next one. *)
Definition demoKernel : Kernel :=
  mkKernel {[ 0%nat := "/dev/tty"%string ]}
           (fun _ => 0) (fun _ => 0) (fun _ _ => 0) (fun _ => 0)
           (fun _ => mkTermios (ICRNL .| IXON) OPOST CS8 (ISIG .| ICANON .| ECHO)
                               (replicate NCCS 0) 0xffffffff 0x1002
                               (mkWinsize 24 80 0 0))
           (fun _ => 7)
           [inl 97; inl 98; inl 99; inl 10]
           [].

(** The path [OpenPTY] opens the slave at, for the number the kernel
    reports. *)
Definition slavePath (ptn : Z) : string := "/dev/pts/" +:+ Itoa (int_of_uint ptn).

(** The error of one side of a PTY being closed, and the kernel afterwards:
    an absent side is an error of its own and makes no call. *)
Definition sideError (absent : string) (f : option File) (k : Kernel) : option error :=
  match f with
  | None => Some (ErrorString absent)
  | Some f => (FileClose f k).1
  end.
Definition sideAfter (f : option File) (k : Kernel) : Kernel :=
  match f with
  | None => k
  | Some f => (FileClose f k).2
  end.

(** The backing array after the bytes [cs] have been stored from index [i]
    on. *)
Fixpoint stored (i : nat) (cs : list Z) (a : list Z) : list Z :=
  match cs with
  | [] => a
  | c :: cs' => stored (S i) cs' (<[i := c]> a)
  end.

(** A byte that does not end the line. *)
Definition inLine (c : Z) : Prop := c ≠ 10 ∧ c ≠ 13.

(** ** Definitions for the further properties of termios_linux.go *)

(** The open descriptors without the one of a side of a PTY, when the side
    is present. *)
Definition withoutSide (f : option File) (fds : gmap nat string) : gmap nat string :=
  match f with
  | Some f => delete (file_fd f) fds
  | None => fds
  end.

(** A byte that ends the line. *)
Definition endsLine (c : Z) : Prop := c = 10 ∨ c = 13.

(** * Proofs *)

(** ** Bit-level facts shared by the proofs *)

Section Bits.
Implicit Types x m c : Z.

Lemma land_ldiff_same x m : (x &^ m) .& m = 0.
Proof.
  apply Z.bits_inj'; intros n _.
  rewrite Z.land_spec, Z.ldiff_spec, Z.bits_0.
  destruct (Z.testbit x n), (Z.testbit m n); reflexivity.
Qed.

Lemma land_ldiff_sub x m m' : m' .& m = m' -> (x &^ m) .& m' = 0.
Proof.
  intros Hsub. rewrite <- Hsub.
  apply Z.bits_inj'; intros n _.
  rewrite !Z.land_spec, Z.ldiff_spec, Z.bits_0.
  destruct (Z.testbit x n), (Z.testbit m n), (Z.testbit m' n); reflexivity.
Qed.

Lemma ldiff_idem x m : x &^ m &^ m = x &^ m.
Proof.
  apply Z.bits_inj'; intros n _.
  rewrite !Z.ldiff_spec.
  destruct (Z.testbit x n), (Z.testbit m n); reflexivity.
Qed.

Lemma clear_set_idem x m c : (((x &^ m) .| c) &^ m) .| c = (x &^ m) .| c.
Proof.
  apply Z.bits_inj'; intros n _.
  rewrite !Z.lor_spec, !Z.ldiff_spec, !Z.lor_spec, !Z.ldiff_spec.
  destruct (Z.testbit x n), (Z.testbit m n), (Z.testbit c n); reflexivity.
Qed.

Lemma land_ldiff_land x m k : (x &^ m) .& k .& m = 0.
Proof.
  apply Z.bits_inj'; intros n Hn.
  rewrite !Z.land_spec, Z.ldiff_spec, Z.bits_0.
  destruct (Z.testbit x n), (Z.testbit m n), (Z.testbit k n); reflexivity.
Qed.

Lemma land_lor_kept x m k b :
  m .& k .| b = m -> ((x .| m) .& k .| b) .& m = m.
Proof.
  intros H. apply Z.bits_inj'; intros n Hn.
  apply (f_equal (fun z => Z.testbit z n)) in H.
  rewrite Z.lor_spec, Z.land_spec in H.
  repeat (rewrite Z.land_spec || rewrite Z.lor_spec).
  destruct (Z.testbit x n), (Z.testbit m n), (Z.testbit k n),
           (Z.testbit b n); cbn in H |- *; first [reflexivity | discriminate H].
Qed.

Lemma land_lor_same x m : (x .| m) .& m = m.
Proof.
  apply Z.bits_inj'; intros n _.
  rewrite Z.land_spec, Z.lor_spec.
  destruct (Z.testbit x n), (Z.testbit m n); reflexivity.
Qed.

Lemma land_lor_sub x m m' : m' .& m = m' -> (x .| m) .& m' = m'.
Proof.
  intros Hsub. rewrite <- Hsub at 2. rewrite <- Hsub at 1.
  apply Z.bits_inj'; intros n _.
  rewrite !Z.land_spec, Z.lor_spec.
  destruct (Z.testbit x n), (Z.testbit m n), (Z.testbit m' n); reflexivity.
Qed.
End Bits.

(** ** Raw and Cook *)

Lemma uint32_land_ones (x : Z) : uint32 x <-> x .& Z.ones 32 = x.
Proof.
  unfold uint32. rewrite Z.land_ones by lia. split.
  - intros Hx. apply Z.mod_small, Hx.
  - intros <-. apply Z.mod_pos_bound. reflexivity.
Qed.

Lemma uint32_ldiff (x m : Z) : uint32 x -> uint32 (x &^ m).
Proof.
  rewrite !uint32_land_ones. intros Hx.
  apply Z.bits_inj'; intros n _.
  rewrite Z.land_spec, Z.ldiff_spec, <- Hx, Z.land_spec.
  destruct (Z.testbit x n), (Z.testbit m n), (Z.testbit (Z.ones 32) n);
    reflexivity.
Qed.

Lemma uint32_lor (x m : Z) : uint32 x -> uint32 m -> uint32 (x .| m).
Proof.
  rewrite !uint32_land_ones. intros Hx Hm.
  apply Z.bits_inj'; intros n _.
  rewrite Z.land_spec, Z.lor_spec, <- Hx, <- Hm, !Z.land_spec.
  destruct (Z.testbit x n), (Z.testbit m n), (Z.testbit (Z.ones 32) n);
    reflexivity.
Qed.

(** [Raw] and [Cook] stay within the words and the array of the type. *)
Lemma Raw_wf (t : Termios) : wf_Termios t -> wf_Termios (Raw t).
Proof.
  intros [HI HO HC HL Hlen Hcc Hin Hout].
  split; cbn [Raw Iflag Oflag Cflag Lflag Cc Ispeed Ospeed];
    try assumption; try (apply uint32_ldiff; assumption).
  - apply uint32_lor; [apply uint32_ldiff; assumption|].
    apply uint32_land_ones. reflexivity.
  - rewrite !length_insert. assumption.
  - apply Forall_insert; [apply Forall_insert; [assumption|]|];
      unfold uint8; lia.
Qed.

Lemma Cook_wf (t : Termios) : wf_Termios t -> wf_Termios (Cook t).
Proof.
  intros [HI HO HC HL Hlen Hcc Hin Hout].
  split; cbn [Cook Iflag Oflag Cflag Lflag Cc Ispeed Ospeed];
    try assumption;
    (apply uint32_lor; [assumption|apply uint32_land_ones; reflexivity]).
Qed.

(** C2: after [Raw] the receiver has IGNBRK, BRKINT, PARMRK, ISTRIP, INLCR,
    IGNCR, ICRNL and IXON cleared in Iflag, OPOST cleared in Oflag, ECHO,
    ECHONL, ICANON, ISIG and IEXTEN cleared in Lflag, PARENB cleared in
    Cflag, the CSIZE field of Cflag equal to CS8, Cc[VMIN] = 1 and
    Cc[VTIME] = 0; [testraw] accepts it. The only hypothesis is that Cc is
    the fixed-size array of the Go type. *)
Theorem Raw_clears_and_sets (t : Termios) :
  length (Cc t) = NCCS ->
  let r := Raw t in
  Iflag r .& (IGNBRK .| BRKINT .| PARMRK .| ISTRIP .| INLCR .| IGNCR .| ICRNL .| IXON) = 0
  ∧ Oflag r .& OPOST = 0
  ∧ Lflag r .& (ECHO .| ECHONL .| ICANON .| ISIG .| IEXTEN) = 0
  ∧ Cflag r .& PARENB = 0
  ∧ Cflag r .& CSIZE = CS8
  ∧ Cc r !! VMIN = Some 1
  ∧ Cc r !! VTIME = Some 0
  ∧ testraw r = true.
Proof.
  intros Hlen r.
  assert (HI : Iflag r .& rawIflagMask = 0) by apply land_ldiff_same.
  assert (HO : Oflag r .& OPOST = 0) by apply land_ldiff_same.
  assert (HL : Lflag r .& rawLflagMask = 0) by apply land_ldiff_same.
  assert (HP : Cflag r .& PARENB = 0).
  { subst r; cbn [Raw Cflag].
    rewrite Z.land_lor_distr_l, land_ldiff_sub by reflexivity. reflexivity. }
  assert (HS : Cflag r .& CSIZE = CS8).
  { subst r; cbn [Raw Cflag].
    rewrite Z.land_lor_distr_l, land_ldiff_sub by reflexivity. reflexivity. }
  assert (Hmin : Cc r !! VMIN = Some 1).
  { subst r; cbn [Raw Cc].
    rewrite list_lookup_insert_ne by (unfold VTIME, VMIN; lia).
    apply list_lookup_insert_eq. rewrite Hlen. unfold VMIN, NCCS; lia. }
  assert (Htime : Cc r !! VTIME = Some 0).
  { subst r; cbn [Raw Cc].
    apply list_lookup_insert_eq. rewrite length_insert, Hlen.
    unfold VTIME, NCCS; lia. }
  repeat split; try assumption.
  unfold testraw. rewrite HI, HO, HL, HP, HS, Hmin, Htime. reflexivity.
Qed.

Lemma Raw_clears_and_sets_witness :
  length (Cc zeroTermios) = NCCS ∧ Cflag (Raw zeroTermios) .& CSIZE = CS8.
Proof.
  split; [reflexivity|].
  apply (Raw_clears_and_sets zeroTermios). reflexivity.
Defined.

(** C5: [Raw] is idempotent: applying it twice leaves exactly the state that
    applying it once leaves, field for field. *)
Theorem Raw_idempotent (t : Termios) : Raw (Raw t) = Raw t.
Proof.
  unfold Raw; cbn [Iflag Oflag Cflag Lflag Cc Ispeed Ospeed Wz].
  f_equal.
  - apply ldiff_idem.
  - apply ldiff_idem.
  - apply clear_set_idem.
  - apply ldiff_idem.
  - rewrite (list_insert_insert_ne _ VMIN VTIME) by (unfold VMIN, VTIME; lia).
    rewrite !list_insert_insert_eq. reflexivity.
Qed.

(** C3: after [Cook] the receiver has BRKINT, IGNPAR, ISTRIP, ICRNL and IXON
    all set in Iflag, OPOST set in Oflag, and ISIG and ICANON set in Lflag;
    [testcook] accepts it. *)
Theorem Cook_sets (t : Termios) :
  let r := Cook t in
  Forall (fun flag => Iflag r .& flag = flag) [BRKINT; IGNPAR; ISTRIP; ICRNL; IXON]
  ∧ Oflag r .& OPOST = OPOST
  ∧ Forall (fun flag => Lflag r .& flag = flag) [ISIG; ICANON]
  ∧ testcook r = true.
Proof.
  intros r. subst r. unfold Cook, testcook; cbn [Iflag Oflag Cflag Lflag Cc].
  split; [|split; [|split]].
  - repeat constructor; apply land_lor_sub; reflexivity.
  - apply land_lor_same.
  - repeat constructor; apply land_lor_sub; reflexivity.
  - rewrite !land_lor_same. reflexivity.
Qed.

(** ** SSH codec: wire format *)

Lemma getUint32_putUint32 (v : Z) :
  uint32 v ->
  getUint32 ((v / 2 ^ 24) mod 256) ((v / 2 ^ 16) mod 256)
            ((v / 2 ^ 8) mod 256) (v mod 256) = v.
Proof.
  unfold uint32, getUint32. intros Hv.
  change (2 ^ 32) with 4294967296 in Hv.
  change (2 ^ 24) with 16777216. change (2 ^ 16) with 65536.
  change (2 ^ 8) with 256.
  Z.div_mod_to_equations. lia.
Qed.

(** A complete pair with a non-zero opcode is consumed and applied. *)
Lemma parseModes_putMode (c : Codec) (op v : Z) (rest : list Z) (t : Termios) :
  op ≠ 0 -> uint32 v ->
  parseModes c (putMode op v ++ rest) t = parseModes c rest (applyMode c op v t).
Proof.
  intros Hop Hv. unfold putMode, putUint32. cbn [app parseModes].
  destruct (Z.eqb_spec op 0) as [->|_]; [contradiction|].
  rewrite getUint32_putUint32 by assumption. reflexivity.
Qed.

(** Fewer than five bytes are never a pair. *)
Lemma parseModes_short (c : Codec) (tail : list Z) (t : Termios) :
  (length tail < 5)%nat -> parseModes c tail t = t.
Proof.
  intros Hlen.
  do 5 (destruct tail as [|? tail]; [reflexivity|]).
  cbn [length] in Hlen. lia.
Qed.

Lemma parseModes_encodeModes (c : Codec) (ps : list (Z * Z)) (rest : list Z)
    (t : Termios) :
  Forall validMode ps ->
  parseModes c (encodeModes ps ++ rest) t = parseModes c rest (applyModes c ps t).
Proof.
  intros Hps. revert t.
  induction Hps as [|[op v] ps [Hop Hv] _ IH]; intros t; [reflexivity|].
  unfold encodeModes, applyModes in *. cbn [flat_map foldl fst snd] in *.
  rewrite <- app_assoc, parseModes_putMode by assumption.
  apply IH.
Qed.

(** C4: [FromSSH] on a sequence of complete pairs followed by fewer than
    five bytes (nothing at all: the sentinel is missing; or the start of a
    pair that is cut off) yields a [Termios]: the zero value with exactly
    the attributes of the complete pairs applied, in order. It is the value
    the same pairs give when the sentinel follows them. This holds whatever
    the codec reads as a set flag and whatever its opcodes for VMIN and
    VTIME. *)
Theorem FromSSH_truncated (c : Codec) (ps : list (Z * Z)) (tail : list Z) :
  Forall validMode ps ->
  (length tail < 5)%nat ->
  FromSSH c (encodeModes ps ++ tail) = applyModes c ps zeroTermios
  ∧ FromSSH c (encodeModes ps ++ tail) = FromSSH c (encodeModes ps ++ [0]).
Proof.
  intros Hps Htail. unfold FromSSH.
  rewrite !parseModes_encodeModes by assumption.
  rewrite (parseModes_short c tail) by assumption.
  split; reflexivity.
Qed.

Lemma FromSSH_truncated_witness :
  encodeModes [(53, 1)] ++ [1; 0; 0] = [53; 0; 0; 0; 1; 1; 0; 0]
  ∧ FromSSH codecAll (encodeModes [(53, 1)] ++ [1; 0; 0]) = setLflag ECHO zeroTermios.
Proof.
  split; [reflexivity|].
  rewrite (proj1 (FromSSH_truncated codecAll [(53, 1)] [1; 0; 0]
                    ltac:(repeat constructor; cbn; unfold uint32; lia)
                    ltac:(cbn; lia))).
  reflexivity.
Defined.

(** ** SSH codec: round trip *)

Lemma uint8_uint32 (x : Z) : uint8 x -> uint32 x.
Proof. unfold uint8, uint32. lia. Qed.

Lemma wf_Cc_default (t : Termios) (i : nat) :
  wf_Termios t -> uint8 (default 0 (Cc t !! i)).
Proof.
  intros Hwf. destruct (Cc t !! i) as [x|] eqn:Hx; cbn.
  - eapply Forall_lookup_1; [apply (wf_Cc t Hwf)|exact Hx].
  - unfold uint8; lia.
Qed.

Lemma lookupOp_app (op : Z) (l1 l2 : list (Z * attr)) :
  lookupOp op (l1 ++ l2) =
  match lookupOp op l1 with Some a => Some a | None => lookupOp op l2 end.
Proof.
  induction l1 as [|[o a] l1 IH]; cbn [app lookupOp]; [reflexivity|].
  destruct (o =? op); [reflexivity|apply IH].
Qed.

Lemma land_pow2 (x k : Z) :
  0 <= k -> x .& 2 ^ k = if Z.testbit x k then 2 ^ k else 0.
Proof.
  intros Hk. apply Z.bits_inj'; intros n Hn.
  rewrite Z.land_spec, Z.pow2_bits_eqb by assumption.
  destruct (Z.eqb_spec k n) as [->|Hne].
  - destruct (Z.testbit x n); cbn.
    + rewrite Z.pow2_bits_eqb, Z.eqb_refl by assumption. reflexivity.
    + rewrite Z.bits_0. reflexivity.
  - rewrite andb_false_r.
    destruct (Z.testbit x k).
    + rewrite Z.pow2_bits_eqb by assumption.
      symmetry. apply Z.eqb_neq, Hne.
    + rewrite Z.bits_0. reflexivity.
Qed.

Lemma singleBit_pow2 (k : Z) : 0 <= k -> singleBit (2 ^ k).
Proof. intros Hk. exists k. split; [assumption|reflexivity]. Qed.

Lemma land_parity_bits (w : Z) :
  w .& (PARENB .| PARODD) =
  (if Z.testbit w 8 then PARENB else 0) .| (if Z.testbit w 9 then PARODD else 0).
Proof.
  change (PARENB .| PARODD) with (2 ^ 8 .| 2 ^ 9).
  rewrite Z.land_lor_distr_r, !land_pow2 by lia. reflexivity.
Qed.

Lemma land_CSIZE_bits (w : Z) :
  w .& CSIZE = (if Z.testbit w 4 then CS6 else 0) .| (if Z.testbit w 5 then CS7 else 0).
Proof.
  change CSIZE with (2 ^ 4 .| 2 ^ 5).
  rewrite Z.land_lor_distr_r, !land_pow2 by lia. reflexivity.
Qed.

Ltac in_range :=
  unfold uint32, uint8; split; [apply Z.leb_le | apply Z.ltb_lt]; reflexivity.

(** A concrete [Termios] is well-formed. *)
Ltac wf_concrete :=
  split; try in_range; try reflexivity;
  repeat apply Forall_cons_2; try apply Forall_nil_2; in_range.

Ltac single_bits :=
  unfold opcodeTable, standardModes; cbn [app];
  repeat constructor; cbn; intros m Hm;
  first [discriminate Hm
        | injection Hm as <-;
          first [ apply (singleBit_pow2 0) | apply (singleBit_pow2 1)
                | apply (singleBit_pow2 2) | apply (singleBit_pow2 3) | apply (singleBit_pow2 4)
                | apply (singleBit_pow2 5) | apply (singleBit_pow2 6)
                | apply (singleBit_pow2 7) | apply (singleBit_pow2 8)
                | apply (singleBit_pow2 10) | apply (singleBit_pow2 12) ];
          lia ].

(** Both readings of "the flag is set" make a codec. *)
Lemma codecAll_wf : wf_Codec codecAll.
Proof.
  split; cbn [isSet opVMIN opVTIME codecAll]; unfold allBits.
  - intros w m _ ->. apply Z.eqb_refl.
  - intros w m Hm ->. apply Z.eqb_neq. congruence.
  - split; [lia|reflexivity].
  - split; [lia|reflexivity].
  - discriminate.
Qed.


Section RoundTrip.

Variable c : Codec.
Hypothesis Hc : wf_Codec c.

Lemma opcodeTable_resolves : Forall (resolves c) (opcodeTable c).
Proof.
  destruct (wf_opVMIN c Hc) as [Hmin Hmin'].
  destruct (wf_opVTIME c Hc) as [Htime Htime'].
  unfold opcodeTable at 1. apply Forall_app. split.
  - repeat constructor; discriminate.
  - repeat constructor; cbn [fst snd]; try lia; unfold opcodeTable;
      rewrite lookupOp_app.
    + rewrite Hmin'. cbn [lookupOp]. rewrite Z.eqb_refl. reflexivity.
    + rewrite Htime'. cbn [lookupOp].
      destruct (Z.eqb_spec (opVMIN c) (opVTIME c)) as [Heq|_].
      * destruct (wf_ops c Hc Heq).
      * rewrite Z.eqb_refl. reflexivity.
Qed.

(** Parsing what [ToSSH] emits for a table, field by field. *)
Lemma parseModes_emit (t : Termios) (tbl : list (Z * attr)) (acc : Termios) :
  wf_Termios t -> Forall (resolves c) tbl ->
  parseModes c (flat_map (emitMode c t) tbl ++ [0]) acc =
  mkTermios (keptFlags c selI (Iflag t) tbl (Iflag acc))
            (keptFlags c selO (Oflag t) tbl (Oflag acc))
            (keptFlags c selC (Cflag t) tbl (Cflag acc))
            (keptFlags c selL (Lflag t) tbl (Lflag acc))
            (keptCc (Cc t) tbl (Cc acc))
            (keptSpeed selIn (Ispeed t) tbl (Ispeed acc))
            (keptSpeed selOut (Ospeed t) tbl (Ospeed acc))
            (Wz acc).
Proof.
  intros Hwf Htbl. revert acc.
  induction Htbl as [|[op a] tbl [Hop Hlook] _ IH]; intros acc.
  - destruct acc; reflexivity.
  - cbn [flat_map fst snd] in *. rewrite <- app_assoc.
    unfold keptFlags, keptCc, keptSpeed in *. cbn [foldl snd].
    assert (Happly : forall v, applyMode c op v acc = setAttr a v acc)
      by (intros v; unfold applyMode; rewrite Hlook; reflexivity).
    destruct a as [i|m|m|m|m| |]; cbn [emitMode selI selO selC selL selIn selOut];
      try (destruct (isSet c _ m); cbn [app]; [|apply IH]);
      rewrite parseModes_putMode, Happly, IH;
      try reflexivity; try assumption; try (unfold uint32; lia).
    + apply uint8_uint32, wf_Cc_default, Hwf.
    + apply (wf_Ispeed t Hwf).
    + apply (wf_Ospeed t Hwf).
Qed.

(** On a mask of one bit every reading agrees: the flag is the bit. *)
Lemma isSet_pow2 (w k : Z) : 0 <= k -> isSet c w (2 ^ k) = Z.testbit w k.
Proof.
  intros Hk.
  assert (Hpos : 2 ^ k ≠ 0) by (pose proof (Z.pow_pos_nonneg 2 k); lia).
  pose proof (land_pow2 w k Hk) as Hland.
  destruct (Z.testbit w k).
  - apply (wf_isSet_all c Hc); assumption.
  - apply (wf_isSet_none c Hc); assumption.
Qed.

Lemma keep_singleBit (w m a : Z) :
  singleBit m -> (if isSet c w m then a .| m else a) = a .| (w .& m).
Proof.
  intros (k & Hk & ->). rewrite isSet_pow2, land_pow2 by assumption.
  destruct (Z.testbit w k); [reflexivity|].
  rewrite Z.lor_0_r. reflexivity.
Qed.

Lemma keptFlags_singleBits sel (w : Z) (tbl : list (Z * attr)) (acc : Z) :
  Forall (fun e => forall m, sel e.2 = Some m -> singleBit m) tbl ->
  keptFlags c sel w tbl acc = acc .| (w .& maskOf sel tbl).
Proof.
  intros Htbl. revert acc.
  induction Htbl as [|e tbl He _ IH]; intros acc.
  - cbn. rewrite Z.land_0_r, Z.lor_0_r. reflexivity.
  - unfold keptFlags in *. cbn [foldl maskOf foldr].
    destruct (sel e.2) as [m|] eqn:Hsel; [|apply IH].
    rewrite IH, keep_singleBit by (apply He; reflexivity).
    fold (maskOf sel tbl).
    rewrite Z.land_lor_distr_r, Z.lor_assoc. reflexivity.
Qed.

Lemma keptIflag (w : Z) :
  keptFlags c selI w (opcodeTable c) 0 =
  w .& (ICRNL .| IGNCR .| INLCR .| IXON .| IXOFF .| IGNPAR .| ISTRIP).
Proof. rewrite keptFlags_singleBits by single_bits. reflexivity. Qed.

Lemma keptOflag (w : Z) : keptFlags c selO w (opcodeTable c) 0 = w .& OPOST.
Proof. rewrite keptFlags_singleBits by single_bits. reflexivity. Qed.

Lemma keptLflag (w : Z) :
  keptFlags c selL w (opcodeTable c) 0 =
  w .& (ISIG .| ICANON .| ECHO .| ECHOE .| ECHOK .| ECHONL).
Proof. rewrite keptFlags_singleBits by single_bits. reflexivity. Qed.

(** CS8 has two bits: it is set when both are in the word, not set when
    neither is, and with one of the two it is as the codec reads it. *)
Lemma isSet_CS8 (w : Z) :
  isSet c w CS8 =
  match Z.testbit w 4, Z.testbit w 5 with
  | true, true => true
  | false, false => false
  | _, _ => isSet c w CS8
  end.
Proof.
  pose proof (land_CSIZE_bits w) as Hland. change CSIZE with CS8 in Hland.
  destruct (Z.testbit w 4), (Z.testbit w 5); try reflexivity.
  - apply (wf_isSet_all c Hc); [discriminate|exact Hland].
  - apply (wf_isSet_none c Hc); [discriminate|exact Hland].
Qed.

(** The control word after a round trip, in terms of bit 5 (on in CS7 and
    CS8), of what the codec reads for CS8, and of PARENB and PARODD. *)
Lemma keptCflag_bits (w : Z) :
  keptFlags c selC w (opcodeTable c) 0 =
  (if Z.testbit w 5 then CS7 else 0)
  .| (if isSet c w CS8 then CS8 else 0)
  .| (w .& (PARENB .| PARODD)).
Proof.
  unfold keptFlags, opcodeTable, standardModes; cbn [app foldl selC snd].
  rewrite land_parity_bits.
  assert (H7 : isSet c w CS7 = Z.testbit w 5) by (apply (isSet_pow2 w 5); lia).
  assert (Hpe : isSet c w PARENB = Z.testbit w 8) by (apply (isSet_pow2 w 8); lia).
  assert (Hpo : isSet c w PARODD = Z.testbit w 9) by (apply (isSet_pow2 w 9); lia).
  rewrite H7, Hpe, Hpo.
  destruct (isSet c w CS8), (Z.testbit w 5), (Z.testbit w 8), (Z.testbit w 9);
    reflexivity.
Qed.

(** The round trip, field by field. *)
Lemma roundTrip (t : Termios) :
  wf_Termios t ->
  FromSSH c (ToSSH c t) =
  mkTermios
    (Iflag t .& (ICRNL .| IGNCR .| INLCR .| IXON .| IXOFF .| IGNPAR .| ISTRIP))
    (Oflag t .& OPOST)
    ((if Z.testbit (Cflag t) 5 then CS7 else 0)
     .| (if isSet c (Cflag t) CS8 then CS8 else 0)
     .| (Cflag t .& (PARENB .| PARODD)))
    (Lflag t .& (ISIG .| ICANON .| ECHO .| ECHOE .| ECHOK .| ECHONL))
    (keptCc (Cc t) (opcodeTable c) (replicate NCCS 0))
    (Ispeed t) (Ospeed t) (mkWinsize 0 0 0 0).
Proof.
  intros Hwf. unfold FromSSH, ToSSH.
  rewrite parseModes_emit by (assumption || apply opcodeTable_resolves).
  cbn [Iflag Oflag Cflag Lflag Cc Ispeed Ospeed Wz zeroTermios].
  rewrite keptIflag, keptOflag, keptLflag, keptCflag_bits. reflexivity.
Qed.


Lemma keptCc_slots (t : Termios) :
  wf_Termios t ->
  Forall (fun i => keptCc (Cc t) (opcodeTable c) (replicate NCCS 0) !! i = Cc t !! i)
         tableSlots.
Proof.
  intros Hwf.
  assert (Hget : forall i, (i < NCCS)%nat ->
            Some (default 0 (Cc t !! i) mod 256) = Cc t !! i).
  { intros i Hi. pose proof (wf_Cc_default t i Hwf) as Hb.
    destruct (lookup_lt_is_Some_2 (Cc t) i) as [x Hx].
    - rewrite (wf_Cc_len t Hwf). exact Hi.
    - rewrite Hx in *. cbn in *. unfold uint8 in Hb.
      rewrite Z.mod_small by lia. reflexivity. }
  unfold keptCc, tableSlots.
  repeat apply Forall_cons_2; try apply Forall_nil_2;
    (etransitivity; [|apply Hget; unfold NCCS, VINTR, VQUIT, VERASE, VKILL,
                        VEOF, VTIME, VMIN, VSTART, VSTOP, VSUSP; lia]);
    reflexivity.
Qed.

(** The codec passes [TestSSH]: a raw terminal with speeds comes back equal
    to itself with the control word masked, a raw terminal comes back raw,
    and a cooked one comes back cooked once BRKINT is added. *)
Lemma TestSSH_passes : TestSSH c = true.
Proof.
  unfold TestSSH. cbv zeta.
  rewrite !roundTrip by wf_concrete.
  rewrite !(wf_isSet_all c Hc _ CS8) by (discriminate || reflexivity).
  vm_compute. reflexivity.
Qed.

(** Spec 8.3, for every terminal: made raw and sent through the codec, it
    passes [testraw], VMIN 1 and VTIME 0 included. *)
Lemma roundTrip_Raw (t : Termios) :
  wf_Termios t -> testraw (FromSSH c (ToSSH c (Raw t))) = true.
Proof.
  intros Hwf. pose proof (Raw_wf t Hwf) as Hraw.
  rewrite roundTrip by assumption.
  pose proof (keptCc_slots (Raw t) Hraw) as Hcc.
  assert (H4 : Z.testbit (Cflag (Raw t)) 4 = true).
  { cbn [Raw Cflag]. rewrite Z.lor_spec, Z.ldiff_spec.
    destruct (Z.testbit (Cflag t) 4); reflexivity. }
  assert (H5 : Z.testbit (Cflag (Raw t)) 5 = true).
  { cbn [Raw Cflag]. rewrite Z.lor_spec, Z.ldiff_spec.
    destruct (Z.testbit (Cflag t) 5); reflexivity. }
  assert (H8 : Z.testbit (Cflag (Raw t)) 8 = false).
  { cbn [Raw Cflag]. rewrite Z.lor_spec, Z.ldiff_spec.
    destruct (Z.testbit (Cflag t) 8); reflexivity. }
  unfold testraw. cbn [Iflag Oflag Cflag Lflag Cc].
  rewrite isSet_CS8, land_parity_bits, H4, H5, H8.
  repeat (apply andb_true_intro; split).
  - cbn [Raw Iflag]. apply Z.eqb_eq, land_ldiff_land.
  - cbn [Raw Oflag]. apply Z.eqb_eq, land_ldiff_land.
  - cbn [Raw Lflag]. apply Z.eqb_eq, land_ldiff_land.
  - destruct (Z.testbit (Cflag (Raw t)) 9); reflexivity.
  - destruct (Z.testbit (Cflag (Raw t)) 9); reflexivity.
  - apply bool_decide_eq_true.
    rewrite (Forall_lookup_1 _ _ 6%nat VMIN Hcc eq_refl).
    rewrite (Forall_lookup_1 _ _ 5%nat VTIME Hcc eq_refl).
    cbn [Raw Cc]. split.
    + rewrite list_lookup_insert_ne by discriminate.
      apply list_lookup_insert_eq.
      rewrite (wf_Cc_len t Hwf). unfold VMIN, NCCS. lia.
    + apply list_lookup_insert_eq.
      rewrite length_insert, (wf_Cc_len t Hwf). unfold VTIME, NCCS. lia.
Qed.

(** Spec 8.4, for every terminal: cooked and sent through the codec, it
    comes back without BRKINT, which has no opcode, and passes [testcook]
    once BRKINT is added. *)
Lemma roundTrip_Cook (t : Termios) :
  wf_Termios t ->
  let dTerm := FromSSH c (ToSSH c (Cook t)) in
  Iflag dTerm .& BRKINT = 0
  ∧ testcook (setIflag (addUint32 (Iflag dTerm) BRKINT) dTerm) = true.
Proof.
  intros Hwf dTerm. subst dTerm. pose proof (Cook_wf t Hwf) as Hcook.
  rewrite roundTrip by assumption.
  cbn [Iflag Oflag Cflag Lflag setIflag].
  set (kept := ICRNL .| IGNCR .| INLCR .| IXON .| IXOFF .| IGNPAR .| ISTRIP).
  assert (Hno : Iflag (Cook t) .& kept .& BRKINT = 0).
  { rewrite <- Z.land_assoc. change (kept .& BRKINT) with 0. apply Z.land_0_r. }
  split; [exact Hno|].
  assert (Hadd : addUint32 (Iflag (Cook t) .& kept) BRKINT
                 = Iflag (Cook t) .& kept .| BRKINT).
  { unfold addUint32. rewrite Z.add_nocarry_lor by exact Hno.
    apply Z.mod_small.
    assert (Hk : uint32 (Iflag (Cook t) .& kept .| BRKINT)).
    { apply uint32_lor; [|in_range].
      apply uint32_land_ones. rewrite <- Z.land_assoc.
      change (kept .& Z.ones 32) with kept. reflexivity. }
    exact Hk. }
  rewrite Hadd. unfold testcook. cbn [Iflag Oflag Lflag Cook setIflag].
  repeat (apply andb_true_intro; split); apply Z.eqb_eq.
  - transitivity cookIflagMask; [|reflexivity].
    apply land_lor_kept. reflexivity.
  - rewrite !land_lor_same. reflexivity.
  - transitivity (ISIG .| ICANON); [|reflexivity].
    pose proof (land_lor_kept (Lflag t) (ISIG .| ICANON)
                  (ISIG .| ICANON .| ECHO .| ECHOE .| ECHOK .| ECHONL) 0 eq_refl)
      as H.
    rewrite Z.lor_0_r in H. exact H.
Qed.

End RoundTrip.

(** ** What FromSSH can produce *)






(** ** The round trip of a terminal *)




(** The two readings on a size of 6 bits: with all bits, neither CS7 nor
    CS8 is sent and the size comes back as 5 bits; with any bit, CS8 is sent
    and the size comes back as 8 bits. *)
Example CS6_by_reading :
  Cflag (FromSSH codecAll (ToSSH codecAll sixBitTermios)) = CS5
  ∧ Cflag (FromSSH codecAny (ToSSH codecAny sixBitTermios)) = CS8.
Proof. split; vm_compute; reflexivity. Qed.

(** The two readings on a size of 7 bits: kept with all bits, turned into 8
    bits with any bit. *)
Example CS7_by_reading :
  Cflag (FromSSH codecAll (ToSSH codecAll sevenBitTermios))
    = CS7 .| PARENB .| PARODD
  ∧ Cflag (FromSSH codecAny (ToSSH codecAny sevenBitTermios))
    = CS8 .| PARENB .| PARODD.
Proof. split; vm_compute; reflexivity. Qed.

(** ** TestSSH *)

(** [TestSSH] passes with either reading. *)
Example TestSSH_readings : TestSSH codecAll = true ∧ TestSSH codecAny = true.
Proof. split; vm_compute; reflexivity. Qed.

(** The first step of [TestSSH]: the raw terminal with its speeds comes
    back with VMIN 1 and VTIME 0, and differs from the terminal sent in the
    control word only. *)
Example TestSSH_raw :
  let sTerm := setOspeed 300 (setIspeed 19200 (Raw zeroTermios)) in
  let dTerm := FromSSH codecAll (ToSSH codecAll sTerm) in
  Cc dTerm !! VMIN = Some 1 ∧ Cc dTerm !! VTIME = Some 0
  ∧ dTerm = setCflag (Cflag sTerm .& (CS7 .| CS8 .| PARENB .| PARODD)) sTerm
  ∧ testraw dTerm = true.
Proof. vm_compute. repeat split; reflexivity. Qed.

(** The last step of [TestSSH]: a cooked terminal, sent through the codec
    and given BRKINT back, passes [testcook]. *)
Example TestSSH_cook :
  let dTerm := FromSSH codecAll (ToSSH codecAll (Cook (Raw zeroTermios))) in
  Iflag dTerm .& BRKINT = 0
  ∧ testcook (setIflag (addUint32 (Iflag dTerm) BRKINT) dTerm) = true.
Proof. vm_compute. split; reflexivity. Qed.

(** ** Descriptors *)

Lemma lowestUnused_fresh (fuel n : nat) (used : gset nat) :
  (size (filter (fun x => n ≤ x)%nat used) ≤ fuel)%nat ->
  lowestUnused fuel n used ∉ used.
Proof.
  revert n. induction fuel as [|fuel IH]; intros n Hsize; cbn [lowestUnused].
  - intros Hn.
    assert (Hin : n ∈ filter (fun x => n ≤ x)%nat used)
      by (apply elem_of_filter; split; [lia|assumption]).
    assert (Hempty : filter (fun x => n ≤ x)%nat used ≡ ∅)
      by (apply size_empty_iff; lia).
    apply (not_elem_of_empty (C := gset nat) n), Hempty, Hin.
  - destruct (decide (n ∈ used)) as [Hn|Hn]; [|assumption].
    apply IH.
    assert (Hsub : filter (fun x => S n ≤ x)%nat used
                   ⊂ filter (fun x => n ≤ x)%nat used).
    { split.
      - intros x. rewrite !elem_of_filter. intros [? ?]. split; [lia|assumption].
      - intros Hsub. specialize (Hsub n).
        rewrite !elem_of_filter in Hsub.
        destruct Hsub as [? _]; [split; [lia|assumption]|lia]. }
    apply subset_size in Hsub. lia.
Qed.

(** A new descriptor is not among the open ones. *)
Lemma newFd_fresh (used : gset nat) : newFd used ∉ used.
Proof.
  apply lowestUnused_fresh, subseteq_size.
  intros x. rewrite elem_of_filter. tauto.
Qed.

Lemma newFd_lookup (fds : gmap nat string) : fds !! newFd (dom fds) = None.
Proof. apply not_elem_of_dom, newFd_fresh. Qed.

(** ** Attr *)

Lemma ldiff_land_same (x m : Z) : (x .& m) &^ m = 0.
Proof.
  apply Z.bits_inj'; intros n _.
  rewrite Z.ldiff_spec, Z.land_spec, Z.bits_0.
  destruct (Z.testbit x n), (Z.testbit m n); reflexivity.
Qed.

(** C10: when [Attr] returns a nil error, no bit of Ispeed or Ospeed lies
    outside CBAUD|CBAUDEX; when it returns an error, that error is the errno
    of the ioctl and the [Termios] is what the ioctl left, unmasked. *)
Theorem Attr_speeds (file : File) (k k' : Kernel) (t : Termios) (err : option error) :
  Attr file k = ((t, err), k') ->
  match err with
  | None =>
      Ispeed t &^ (CBAUD .| CBAUDEX) = 0 ∧ Ospeed t &^ (CBAUD .| CBAUDEX) = 0
  | Some e =>
      e = Errno (k_ioctl k TCGETS (file_fd file))
      ∧ k_ioctl k TCGETS (file_fd file) ≠ 0
      ∧ t = k_attr k (file_fd file)
  end.
Proof.
  unfold Attr, bind, ioctl. cbn [k_attr logged].
  destruct (Z.eqb_spec (k_ioctl k TCGETS (file_fd file)) 0) as [Heq|Hne];
    intros [= <- <- <-].
  - cbn [Ispeed Ospeed setIspeed setOspeed].
    split; apply ldiff_land_same.
  - repeat split. assumption.
Qed.

Lemma Attr_speeds_witness :
  let r := Attr (mkFile 0 "/dev/tty") demoKernel in
  Ispeed r.1.1 &^ (CBAUD .| CBAUDEX) = 0 ∧ Ospeed r.1.1 &^ (CBAUD .| CBAUDEX) = 0.
Proof.
  apply (Attr_speeds (mkFile 0 "/dev/tty") demoKernel
           (Attr (mkFile 0 "/dev/tty") demoKernel).2 (Attr (mkFile 0 "/dev/tty") demoKernel).1.1 None).
  reflexivity.
Defined.

(** ** PTSName *)

Lemma int_of_uint_small (n : Z) : uint32 n -> int_of_uint n = n.
Proof.
  unfold uint32, int_of_uint. intros Hn.
  destruct (Z.ltb_spec n (2 ^ 63)) as [_|Hge]; [reflexivity|].
  assert (2 ^ 32 < 2 ^ 63) by reflexivity. lia.
Qed.

(** C9: [PTSName] asks the kernel for the PTY number of the master, once on
    every call and in the state the kernel is in at that call. When the
    query succeeds the path is "/dev/pts/" followed by the decimal rendering
    of the number the kernel reports (an unsigned 32-bit number); when it
    fails the path is empty and the error is the errno of the query. *)
Theorem PTSName_path (p : PTY) (m : File) (k : Kernel) :
  Master p = Some m ->
  uint32 (k_ptn k (file_fd m)) ->
  let errno := k_ioctl k TIOCGPTN (file_fd m) in
  (PTSName p k).1 =
    (if errno =? 0
     then ("/dev/pts/" +:+ pretty (k_ptn k (file_fd m)), None)
     else (""%string, Some (Errno errno)))
  ∧ k_trace (PTSName p k).2 = EvIoctl TIOCGPTN (Some (file_fd m)) :: k_trace k
  ∧ k_fds (PTSName p k).2 = k_fds k.
Proof.
  intros Hm Hn errno. subst errno.
  unfold PTSName, PTSNumber, bind, ioctl, ret, Fd. rewrite Hm.
  cbn [fmap option_fmap option_map k_ptn logged].
  destruct (k_ioctl k TIOCGPTN (file_fd m) =? 0); cbn.
  - rewrite int_of_uint_small by assumption. auto.
  - auto.
Qed.

Lemma PTSName_path_witness :
  (PTSName (mkPTY (Some (mkFile 0 "/dev/tty")) None) demoKernel).1
  = ("/dev/pts/7"%string, None).
Proof.
  apply (PTSName_path (mkPTY (Some (mkFile 0 "/dev/tty")) None) (mkFile 0 "/dev/tty") demoKernel).
  - reflexivity.
  - in_range.
Defined.

(** The same PTY, asked again after the kernel has come to report another
    number: the path follows the kernel. *)
Example PTSName_requeries :
  let p := mkPTY (Some (mkFile 0 "/dev/tty")) None in
  let later := mkKernel (k_fds demoKernel) (k_open demoKernel) (k_close demoKernel)
                        (k_ioctl demoKernel) (k_write demoKernel)
                        (k_attr demoKernel) (fun _ => 12) (k_input demoKernel)
                        (k_trace (PTSName p demoKernel).2) in
  (PTSName p demoKernel).1 = ("/dev/pts/7"%string, None)
  ∧ (PTSName p later).1 = ("/dev/pts/12"%string, None)
  ∧ k_trace (PTSName p later).2
    = [EvIoctl TIOCGPTN (Some 0%nat); EvIoctl TIOCGPTN (Some 0%nat)].
Proof. repeat split. Qed.

(** ** OpenPTY *)

(** The steps of [OpenPTY], by the answers of the kernel. *)

Lemma FileClose_open (f : File) (k : Kernel) (path : string) :
  k_fds k !! file_fd f = Some path ->
  FileClose f k =
    (if k_close k (file_fd f) =? 0 then None
     else Some (PathError "close" (file_name f) (Errno (k_close k (file_fd f)))),
     withFds (delete (file_fd f) (k_fds k)) (logged (EvClose (file_fd f)) k)).
Proof. intros H. unfold FileClose. rewrite H. reflexivity. Qed.

Lemma FileClose_closed (f : File) (k : Kernel) :
  k_fds k !! file_fd f = None ->
  FileClose f k = (Some (PathError "close" (file_name f) ErrClosed), k).
Proof. intros H. unfold FileClose. rewrite H. reflexivity. Qed.

Lemma FileClose_fds (f : File) (k : Kernel) :
  k_fds (FileClose f k).2 = delete (file_fd f) (k_fds k)
  ∧ k_close (FileClose f k).2 = k_close k.
Proof.
  destruct (k_fds k !! file_fd f) as [path|] eqn:H.
  - rewrite (FileClose_open f k path H). split; reflexivity.
  - rewrite (FileClose_closed f k H). cbn [snd].
    rewrite delete_id by assumption. split; reflexivity.
Qed.

(** The run of [OpenPTY]: its result, the descriptors open afterwards and
    the calls made, by the answers of the kernel to the four calls that can
    fail. *)
Lemma OpenPTY_run (k : Kernel) :
  let m := newFd (dom (k_fds k)) in
  let fds1 := <[m := "/dev/ptmx"%string]> (k_fds k) in
  let s := newFd (dom fds1) in
  let path := slavePath (k_ptn k m) in
  let e1 := k_open k "/dev/ptmx" in
  let e2 := k_ioctl k TIOCSPTLCK m in
  let e3 := k_ioctl k TIOCGPTN m in
  let e4 := k_open k path in
  let opened := EvOpen "/dev/ptmx" 0 :: k_trace k in
  let unlocked := EvIoctl TIOCSPTLCK (Some m) :: opened in
  let named := EvIoctl TIOCGPTN (Some m) :: unlocked in
  exists k',
    OpenPTY k =
      (if negb (e1 =? 0)
       then (None, Some (PathError "open" "/dev/ptmx" (Errno e1)))
       else if negb (e2 =? 0) then (None, Some (Errno e2))
       else if negb (e3 =? 0) then (None, Some (Errno e3))
       else if negb (e4 =? 0)
       then (None, Some (PathError "open" path (Errno e4)))
       else (Some (mkPTY (Some (mkFile m "/dev/ptmx")) (Some (mkFile s path))),
             None), k')
    ∧ k_close k' = k_close k
    ∧ k_fds k' =
        (if (e1 =? 0) && (e2 =? 0) && (e3 =? 0) && (e4 =? 0)
         then <[s := path]> fds1 else k_fds k)
    ∧ k_trace k' =
        (if negb (e1 =? 0) then EvOpen "/dev/ptmx" e1 :: k_trace k
         else if negb (e2 =? 0) then EvClose m :: unlocked
         else if negb (e3 =? 0) then EvClose m :: named
         else if negb (e4 =? 0) then EvClose m :: EvOpen path e4 :: named
         else EvOpen path 0 :: named).
Proof.
  intros m fds1 s path e1 e2 e3 e4 opened unlocked named.
  assert (Hm : k_fds k !! m = None) by apply newFd_lookup.
  assert (Hdel : delete m fds1 = k_fds k).
  { unfold fds1. rewrite delete_insert_eq. apply delete_id, Hm. }
  unfold OpenPTY, bind, OpenFile. fold e1.
  destruct (Z.eqb_spec e1 0) as [He1|He1]; cbn [negb andb];
    [|eexists; repeat split].
  fold m. fold fds1.
  unfold ioctl at 1, Fd. cbn [fmap option_fmap option_map file_fd].
  cbn [k_ioctl withFds logged]. fold e2.
  destruct (Z.eqb_spec e2 0) as [He2|He2]; cbn [negb andb].
  2:{ rewrite (FileClose_open (mkFile m "/dev/ptmx") _ "/dev/ptmx")
        by (cbn [k_fds withFds logged file_fd]; apply lookup_insert_eq).
      cbn [file_fd k_fds withFds logged k_trace k_close ret].
      eexists. split; [reflexivity|]. cbn [k_close k_fds k_trace withFds logged].
      rewrite He1. repeat split. exact Hdel. }
  unfold PTSName, PTSNumber, ioctl, bind, Fd, ret.
  cbn [Master fmap option_fmap option_map file_fd k_ioctl k_ptn withFds logged].
  fold e3.
  destruct (Z.eqb_spec e3 0) as [He3|He3]; cbn [negb andb].
  2:{ rewrite (FileClose_open (mkFile m "/dev/ptmx") _ "/dev/ptmx")
        by (cbn [k_fds withFds logged file_fd]; apply lookup_insert_eq).
      cbn [file_fd k_fds withFds logged k_trace k_close].
      eexists. split; [reflexivity|]. cbn [k_close k_fds k_trace withFds logged].
      rewrite He1. repeat split. exact Hdel. }
  fold (slavePath (k_ptn k m)). fold path.
  cbn [k_open withFds logged k_fds]. fold e4.
  destruct (Z.eqb_spec e4 0) as [He4|He4]; cbn [negb andb].
  - eexists. split; [reflexivity|]. cbn [k_close k_fds k_trace withFds logged].
    rewrite He1, He4. repeat split.
  - rewrite (FileClose_open (mkFile m "/dev/ptmx") _ "/dev/ptmx")
      by (cbn [k_fds withFds logged file_fd]; apply lookup_insert_eq).
    cbn [file_fd k_fds withFds logged k_trace k_close].
    eexists. split; [reflexivity|]. cbn [k_close k_fds k_trace withFds logged].
    rewrite He1. repeat split. exact Hdel.
Qed.

(** C6: [OpenPTY] returns a PTY and a nil error exactly when the kernel
    lets the master be opened, unlocked and named and the slave be opened;
    master and slave are then two distinct descriptors that were not open
    before and are open now, the master at "/dev/ptmx" and the slave at the
    path of the number the kernel reports for the master. In every other
    case it returns a nil PTY and an error, and the descriptors open
    afterwards are those open before: when the master could not be opened
    that open is the only call made; when the unlock ioctl, the query for
    the number or the open of the slave fails, the master, opened before,
    is closed, and that close is the last call made. *)
Theorem OpenPTY_descriptors (k : Kernel) :
  let m := newFd (dom (k_fds k)) in
  let fds1 := <[m := "/dev/ptmx"%string]> (k_fds k) in
  let s := newFd (dom fds1) in
  let path := slavePath (k_ptn k m) in
  let masterOpened := k_open k "/dev/ptmx" =? 0 in
  let unlocked := k_ioctl k TIOCSPTLCK m =? 0 in
  let named := k_ioctl k TIOCGPTN m =? 0 in
  let slaveOpened := k_open k path =? 0 in
  let '((pty, err), k') := OpenPTY k in
  if masterOpened && unlocked && named && slaveOpened then
    pty = Some (mkPTY (Some (mkFile m "/dev/ptmx")) (Some (mkFile s path)))
    ∧ err = None
    ∧ m ≠ s ∧ k_fds k !! m = None ∧ k_fds k !! s = None
    ∧ k_fds k' = <[s := path]> fds1
  else
    pty = None ∧ is_Some err ∧ k_fds k' = k_fds k
    ∧ if masterOpened
      then exists rest,
             k_trace k' = EvClose m :: rest ∧ EvOpen "/dev/ptmx" 0 ∈ rest
      else k_trace k' = EvOpen "/dev/ptmx" (k_open k "/dev/ptmx") :: k_trace k.
Proof.
  cbn zeta.
  destruct (OpenPTY_run k) as (k' & Hrun & _ & Hfds & Htr).
  cbn zeta in Hrun, Hfds, Htr. rewrite Hrun. clear Hrun.
  set (m := newFd (dom (k_fds k))) in *.
  set (fds1 := <[m := "/dev/ptmx"%string]> (k_fds k)) in *.
  set (s := newFd (dom fds1)) in *.
  assert (Hm : k_fds k !! m = None) by apply newFd_lookup.
  assert (Hs : fds1 !! s = None) by apply newFd_lookup.
  apply lookup_insert_None in Hs as [Hs Hms].
  destruct (k_open k "/dev/ptmx" =? 0); cbn [negb andb] in *;
    [|repeat split; eauto].
  destruct (k_ioctl k TIOCSPTLCK m =? 0); cbn [negb andb] in *.
  2:{ repeat split; eauto. eexists. split; [exact Htr|].
      repeat first [apply list_elem_of_here | apply list_elem_of_further]. }
  destruct (k_ioctl k TIOCGPTN m =? 0); cbn [negb andb] in *.
  2:{ repeat split; eauto. eexists. split; [exact Htr|].
      repeat first [apply list_elem_of_here | apply list_elem_of_further]. }
  destruct (k_open k (slavePath (k_ptn k m)) =? 0); cbn [negb andb] in *.
  - repeat split; assumption.
  - repeat split; eauto. eexists. split; [exact Htr|].
    repeat first [apply list_elem_of_here | apply list_elem_of_further].
Qed.

Example OpenPTY_demo :
  (OpenPTY demoKernel).1 = (Some (mkPTY (Some (mkFile 1 "/dev/ptmx")) (Some (mkFile 2 "/dev/pts/7"))), None)
  ∧ k_fds (OpenPTY demoKernel).2 !! 2%nat = Some "/dev/pts/7"%string.
Proof. split; reflexivity. Qed.

(** ** Close *)

Section CloseSpec.
Variable strerror : Z -> string.

(** C7: [Close] closes the slave, then the master in the state the slave
    side left, whatever the slave side gave; an absent side counts as an
    error of that side. The result is nil exactly when both sides are
    present and both closes succeed; otherwise it is one error whose message
    has "Slave: " and the slave's error when the slave side failed, and
    "Master: " and the master's error when the master side failed, separated
    by a space when both did. *)
Theorem Close_both_sides (p : PTY) (k : Kernel) :
  let slaveErr := sideError "Slave FD nil" (Slave p) k in
  let k1 := sideAfter (Slave p) k in
  let masterErr := sideError "Master FD nil" (Master p) k1 in
  (Close strerror p k).2 = sideAfter (Master p) k1
  ∧ (Close strerror p k).1 =
      match slaveErr, masterErr with
      | None, None => None
      | Some a, None => Some (ErrorString ("Slave: " +:+ Error strerror a))
      | None, Some b => Some (ErrorString ("Master: " +:+ Error strerror b))
      | Some a, Some b =>
          Some (ErrorString ("Slave: " +:+ Error strerror a +:+ " "
                             +:+ "Master: " +:+ Error strerror b))
      end
  ∧ ((Close strerror p k).1 = None ↔
     exists s m, Slave p = Some s ∧ Master p = Some m
       ∧ (FileClose s k).1 = None
       ∧ (FileClose m (FileClose s k).2).1 = None).
Proof.
  destruct p as [m s]. unfold Close, bind, sideError, sideAfter.
  cbn [Slave Master].
  destruct s as [s|], m as [m|]; cbn [ret];
    try (destruct (FileClose s k) as [se k1] eqn:Hs; cbn [fst snd]);
    try (destruct (FileClose m _) as [me k2] eqn:Hm; cbn [fst snd]);
    try destruct se as [a|]; try destruct me as [b|]; cbn [fst snd app Join];
    (split; [reflexivity|split; [reflexivity|]]);
    (split;
     [ intros H; try discriminate H;
       exists s, m; rewrite Hs; cbn [fst snd]; rewrite Hm; auto
     | intros (s' & m' & Hs' & Hm' & H1 & H2);
       try discriminate Hs'; try discriminate Hm';
       injection Hs' as <-; injection Hm' as <-;
       rewrite Hs in H1, H2; cbn [fst snd] in H1, H2; rewrite ?Hm in H2;
       cbn [fst snd] in H2;
       try discriminate H1; try discriminate H2; reflexivity ]).
Qed.

End CloseSpec.

(** A PTY without slave: the error names the slave side, and the master,
    open on descriptor 0, has been closed all the same. *)
Example Close_absent_slave :
  let r := Close (fun _ => "errno"%string) (mkPTY (Some (mkFile 0 "/dev/tty")) None) demoKernel in
  r.1 = Some (ErrorString "Slave: Slave FD nil")
  ∧ k_fds r.2 = ∅
  ∧ k_trace r.2 = [EvClose 0].
Proof. vm_compute. repeat split. Qed.

(** Both sides absent: both are named. *)
Example Close_absent_both :
  (Close (fun _ => "errno"%string) (mkPTY None None) demoKernel).1
  = Some (ErrorString "Slave: Slave FD nil Master: Master FD nil").
Proof. reflexivity. Qed.

(** ** GetPass *)

Lemma clearbuf_zeroes (a : list Z) (n : nat) :
  (n ≤ length a)%nat ->
  clearbuf (mkSlice a n) = replicate n 0 ++ drop n a.
Proof.
  unfold clearbuf; cbn [arr len].
  induction n as [|n IH]; intros Hn; [reflexivity|].
  rewrite seq_S, foldl_snoc, IH by lia. cbn [Nat.add].
  destruct (lookup_lt_is_Some_2 a n) as [x Hx]; [lia|].
  rewrite (drop_S a x n Hx), replicate_S_end, <- app_assoc.
  rewrite insert_app_r_alt by (rewrite length_replicate; lia).
  rewrite length_replicate, Nat.sub_diag. reflexivity.
Qed.

Lemma length_stored (cs : list Z) (i : nat) (a : list Z) :
  length (stored i cs a) = length a.
Proof.
  revert i a. induction cs as [|c cs IH]; intros i a; [reflexivity|].
  cbn [stored]. rewrite IH, length_insert. reflexivity.
Qed.

Lemma stored_spec (cs : list Z) (i : nat) (a : list Z) :
  (i + length cs ≤ length a)%nat ->
  stored i cs a = take i a ++ cs ++ drop (i + length cs) a.
Proof.
  revert i a. induction cs as [|c cs IH]; intros i a Hlen; cbn [stored length] in *.
  - rewrite Nat.add_0_r. cbn [app]. symmetry. apply take_drop.
  - rewrite IH by (rewrite length_insert; lia).
    rewrite (take_S_r _ i c) by (apply list_lookup_insert_eq; lia).
    rewrite take_insert_ge by lia.
    rewrite drop_insert_lt by lia.
    rewrite <- app_assoc. cbn [app]. do 4 f_equal. lia.
Qed.

(** The loop, when the next bytes do not end the line: they are stored and
    the buffer is full. *)
Lemma readLoop_fill (f : File) (cs : list Z) :
  forall (i : nat) (pbuf : Slice) (k : Kernel) (rest : list (Z + Z)),
    Forall inLine cs ->
    k_input k = (inl <$> cs) ++ rest ->
    (readLoop (length cs) i f pbuf k).1 =
      (Full (i + length cs), mkSlice (stored i cs (arr pbuf)) (len pbuf)).
Proof.
  induction cs as [|c cs IH]; intros i pbuf k rest Hcs Hin.
  - cbn. rewrite Nat.add_0_r. destruct pbuf; reflexivity.
  - apply Forall_cons_1 in Hcs as [[Hc10 Hc13] Hcs].
    cbn [length readLoop]. unfold bind, FileRead. rewrite Hin. cbn [fmap list_fmap app].
    destruct (Z.eqb_spec c 10) as [?|_]; [contradiction|].
    destruct (Z.eqb_spec c 13) as [?|_]; [contradiction|].
    cbn [orb].
    rewrite (IH (S i) (store pbuf i c) _ rest Hcs) by reflexivity.
    cbn [store arr len stored]. do 2 f_equal. lia.
Qed.

Lemma Attr_ok (f : File) (k : Kernel) :
  k_ioctl k TCGETS (file_fd f) = 0 ->
  Attr f k =
    ((setOspeed (Ospeed (k_attr k (file_fd f)) .& (CBAUD .| CBAUDEX))
        (setIspeed (Ispeed (k_attr k (file_fd f)) .& (CBAUD .| CBAUDEX))
           (k_attr k (file_fd f))), None),
     logged (EvIoctl TCGETS (Some (file_fd f))) k).
Proof.
  intros H0. unfold Attr, bind, ioctl. rewrite H0. reflexivity.
Qed.

Lemma TermiosSet_ok (t : Termios) (f : File) (k : Kernel) :
  k_ioctl k TCSETS (file_fd f) = 0 ->
  (TermiosSet t f k).1 = None
  ∧ k_ioctl (TermiosSet t f k).2 = k_ioctl k
  ∧ k_write (TermiosSet t f k).2 = k_write k
  ∧ k_input (TermiosSet t f k).2 = k_input k.
Proof.
  intros H0. unfold TermiosSet, bind, ioctl. rewrite H0. auto.
Qed.

(** What [GetPass] does when the buffer fills before a line terminator is
    read: with spare capacity it zeroes the buffer and one byte more, and
    reports the error; without, the slice expression [pbuf[:i+1]] panics and
    the bytes read stay in the buffer. *)
Lemma GetPass_buffer_full (prompt : string) (f : File) (pbuf : Slice)
    (k : Kernel) (cs : list Z) (rest : list (Z + Z)) :
  k_ioctl k TCGETS (file_fd f) = 0 ->
  k_ioctl k TCSETS (file_fd f) = 0 ->
  k_write k (file_fd f) = 0 ->
  (len pbuf ≤ cap pbuf)%nat ->
  length cs = len pbuf ->
  Forall inLine cs ->
  k_input k = (inl <$> cs) ++ rest ->
  (GetPass prompt f pbuf k).1 =
    if decide (len pbuf < cap pbuf)%nat
    then (Returned (None, Some (ErrorString "ran out of bufferspace")),
          mkSlice (replicate (len pbuf + 1) 0 ++ drop (len pbuf + 1) (arr pbuf))
                  (len pbuf))
    else (Panicked "slice bounds out of range",
          mkSlice (cs ++ drop (len pbuf) (arr pbuf)) (len pbuf)).
Proof.
  intros Hget Hset Hwrite Hcap Hlen Hcs Hin.
  unfold GetPass, bind. rewrite Attr_ok by assumption.
  set (t := setOspeed _ _). set (k0 := logged _ k).
  destruct (TermiosSet_ok (setLflag (Lflag t &^ ECHO) t) f k0 Hset)
    as (Hnone & Hioctl & Hwr & Hinp).
  destruct (TermiosSet _ f k0) as [e1 k1]. cbn [fst snd] in *. subst e1.
  unfold FileWrite. rewrite Hwr. unfold k0 at 1. cbn [k_write logged].
  rewrite Hwrite.
  cbn [Z.eqb].
  set (k2 := logged _ k1).
  assert (Hin2 : k_input k2 = (inl <$> cs) ++ rest)
    by (unfold k2; cbn [k_input logged]; rewrite Hinp; exact Hin).
  pose proof (readLoop_fill f cs 0 pbuf k2 rest Hcs Hin2) as Hloop.
  rewrite Hlen in Hloop.
  destruct (readLoop (len pbuf) 0 f pbuf k2) as [[e pbuf'] k3].
  cbn [fst Nat.add] in Hloop. injection Hloop as -> ->.
  rewrite stored_spec by (unfold cap in Hcap; cbn [Nat.add]; lia).
  rewrite take_0. cbn [app Nat.add]. rewrite Hlen.
  unfold sliceTo, cap in *. cbn [arr len].
  assert (Hl : length (cs ++ drop (len pbuf) (arr pbuf)) = length (arr pbuf)).
  { rewrite length_app, length_drop. lia. }
  rewrite Hl.
  destruct (decide (len pbuf < length (arr pbuf))%nat) as [Hlt|Hge].
  - destruct (Nat.leb_spec (len pbuf + 1) (length (arr pbuf))) as [_|?]; [|lia].
    destruct (TermiosSet t f k3) as [? ?]. cbn [ret fst].
    rewrite clearbuf_zeroes by (rewrite Hl; lia).
    rewrite drop_app_ge by lia.
    rewrite drop_drop. do 4 f_equal. lia.
  - destruct (Nat.leb_spec (len pbuf + 1) (length (arr pbuf))) as [?|_]; [lia|].
    destruct (TermiosSet t f k3) as [? ?]. reflexivity.
Qed.

(** C8: with a buffer made by [make([]byte, 2)] and a terminal that delivers
    "abc" and a newline, the buffer is full before the line ends; [GetPass]
    then panics in [pbuf[:i+1]] instead of returning an error, and the two
    bytes read are still in the buffer. *)
Theorem GetPass_full_buffer_panics :
  (GetPass "Password: " (mkFile 0 "/dev/tty") (mkSlice [0; 0] 2) demoKernel).1
  = (Panicked "slice bounds out of range", mkSlice [97; 98] 2).
Proof. vm_compute. reflexivity. Qed.

(** The same call with one byte of spare capacity, [make([]byte, 2, 3)]:
    the error is returned and the buffer is zeroed. *)
Example GetPass_spare_capacity :
  (GetPass "Password: " (mkFile 0 "/dev/tty") (mkSlice [0; 0; 0] 2) demoKernel).1
  = (Returned (None, Some (ErrorString "ran out of bufferspace")),
     mkSlice [0; 0; 0] 2).
Proof. vm_compute. reflexivity. Qed.

(** A line that fits: the password is returned and stays in the buffer. *)
Example GetPass_line :
  (GetPass "Password: " (mkFile 0 "/dev/tty") (mkSlice [0; 0; 0; 0] 4) demoKernel).1
  = (Returned (Some [97; 98; 99], None), mkSlice [97; 98; 99; 0] 4).
Proof. vm_compute. reflexivity. Qed.

(** * Further properties of termios_linux.go *)

(** ** clearbuf *)

(** [clearbuf] zeroes the bytes within the length of its slice and nothing
    else: the array keeps its length, and the bytes from the length on are
    as they were. *)
Theorem clearbuf_within_length (a : list Z) (n : nat) :
  (n ≤ length a)%nat ->
  length (clearbuf (mkSlice a n)) = length a
  ∧ take n (clearbuf (mkSlice a n)) = replicate n 0
  ∧ drop n (clearbuf (mkSlice a n)) = drop n a.
Proof.
  intros Hn. rewrite clearbuf_zeroes by assumption.
  split; [|split].
  - rewrite length_app, length_replicate, length_drop. lia.
  - rewrite take_app_length' by (symmetry; apply length_replicate).
    reflexivity.
  - rewrite drop_app_length' by (symmetry; apply length_replicate).
    reflexivity.
Qed.

Lemma clearbuf_within_length_witness :
  (2 ≤ length [7; 8; 9])%nat
  ∧ clearbuf (mkSlice [7; 8; 9] 2) = [0; 0; 9].
Proof.
  split; [cbn; lia|].
  destruct (clearbuf_within_length [7; 8; 9] 2 ltac:(cbn; lia)) as (_ & Ht & Hd).
  rewrite <- (take_drop 2 (clearbuf (mkSlice [7; 8; 9] 2))), Ht, Hd.
  reflexivity.
Defined.

(** ** GetPass *)

(** The read loop asks the kernel for bytes only: what the kernel answers to
    ioctls, the attributes it holds and the open descriptors are as before. *)
Lemma readLoop_frame (f : File) (n : nat) :
  forall (i : nat) (pbuf : Slice) (k : Kernel),
    k_ioctl (readLoop n i f pbuf k).2 = k_ioctl k
    ∧ k_fds (readLoop n i f pbuf k).2 = k_fds k
    ∧ k_attr (readLoop n i f pbuf k).2 = k_attr k.
Proof.
  induction n as [|n IH]; intros i pbuf k; [repeat split|].
  cbn [readLoop]. unfold bind, FileRead.
  destruct (k_input k) as [|[c|e] rest].
  - destruct (sliceTo pbuf (i + 1)); [|repeat split].
    destruct (IH (S i) (store (mkSlice (clearbuf s) (len pbuf)) i 0)
                 (logged (EvRead (file_fd f)) k)) as (-> & -> & ->).
    repeat split.
  - destruct ((c =? 10) || (c =? 13)); [repeat split|].
    destruct (IH (S i) (store pbuf i c)
                 (withInput rest (logged (EvRead (file_fd f)) k)))
      as (-> & -> & ->).
    repeat split.
  - destruct (sliceTo pbuf (i + 1)); [|repeat split].
    destruct (IH (S i) (store (mkSlice (clearbuf s) (len pbuf)) i 0)
                 (withInput rest (logged (EvRead (file_fd f)) k)))
      as (-> & -> & ->).
    repeat split.
Qed.

Lemma TermiosSet_frame (t : Termios) (f : File) (k : Kernel) :
  k_ioctl (TermiosSet t f k).2 = k_ioctl k
  ∧ k_fds (TermiosSet t f k).2 = k_fds k
  ∧ k_input (TermiosSet t f k).2 = k_input k
  ∧ k_write (TermiosSet t f k).2 = k_write k
  ∧ k_trace (TermiosSet t f k).2 = EvIoctl TCSETS (Some (file_fd f)) :: k_trace k.
Proof.
  unfold TermiosSet, bind, ioctl.
  destruct (k_ioctl k TCSETS (file_fd f) =? 0); repeat split.
Qed.

Lemma TermiosSet_stores (t : Termios) (f : File) (k : Kernel) :
  k_ioctl k TCSETS (file_fd f) = 0 ->
  k_attr (TermiosSet t f k).2 (file_fd f) = kernelTakes t (k_attr k (file_fd f)).
Proof.
  intros H0. unfold TermiosSet, bind, ioctl. rewrite H0.
  cbn [Z.eqb snd k_attr withAttr logged]. rewrite decide_True by reflexivity.
  reflexivity.
Qed.

Lemma land_land_same (x m : Z) : x .& m .& m = x .& m.
Proof. rewrite <- Z.land_assoc, Z.land_diag. reflexivity. Qed.

(** [GetPass] leaves the terminal as it found it: when the terminal answers
    TCGETS and TCSETS, [Attr] returns after [GetPass] what it returned
    before, however [GetPass] ended; the last call [GetPass] makes is the
    TCSETS that restores the attributes, and it opens and closes no
    descriptor. *)
Theorem GetPass_restores_attributes (prompt : string) (f : File)
    (pbuf : Slice) (k : Kernel) :
  k_ioctl k TCGETS (file_fd f) = 0 ->
  k_ioctl k TCSETS (file_fd f) = 0 ->
  let k' := (GetPass prompt f pbuf k).2 in
  (Attr f k').1 = (Attr f k).1
  ∧ (exists rest, k_trace k' = EvIoctl TCSETS (Some (file_fd f)) :: rest)
  ∧ k_fds k' = k_fds k.
Proof.
  intros Hget Hset k'. subst k'.
  rewrite (Attr_ok f k Hget). cbn [fst].
  set (kt := k_attr k (file_fd f)).
  set (t := setOspeed _ _).
  assert (Hfinish : forall A (x : A) (k3 : Kernel),
            k_ioctl k3 = k_ioctl k -> k_fds k3 = k_fds k ->
            Ispeed (k_attr k3 (file_fd f)) = Ispeed kt ->
            Ospeed (k_attr k3 (file_fd f)) = Ospeed kt ->
            Wz (k_attr k3 (file_fd f)) = Wz kt ->
            let k' := ((let* _ := TermiosSet t f in ret x) k3).2 in
            (Attr f k').1 = (t, None)
            ∧ (exists rest, k_trace k' = EvIoctl TCSETS (Some (file_fd f)) :: rest)
            ∧ k_fds k' = k_fds k).
  { intros A x k3 Hioc Hfds Hin Hout Hwz. unfold bind.
    pose proof (TermiosSet_frame t f k3) as (Hi & Hf & _ & _ & Htr).
    pose proof (TermiosSet_stores t f k3) as Hst.
    rewrite Hioc in Hst. specialize (Hst Hset).
    destruct (TermiosSet t f k3) as [e k4]. cbn [fst snd ret] in *.
    split; [|split; [eauto|congruence]].
    rewrite Attr_ok by (rewrite Hi, Hioc; exact Hget).
    cbn [fst]. rewrite Hst. unfold kernelTakes. rewrite Hin, Hout, Hwz.
    unfold t.
    cbn [setOspeed setIspeed Ispeed Ospeed Iflag Oflag Cflag Lflag Cc Wz].
    reflexivity. }
  unfold GetPass, bind. rewrite (Attr_ok f k Hget). fold kt. fold t.
  set (k0 := logged _ k).
  pose proof (TermiosSet_frame (setLflag (Lflag t &^ ECHO) t) f k0)
    as (Hi1 & Hf1 & _ & _ & _).
  pose proof (TermiosSet_stores (setLflag (Lflag t &^ ECHO) t) f k0 Hset) as Hst1.
  destruct (TermiosSet_ok (setLflag (Lflag t &^ ECHO) t) f k0 Hset)
    as (Hnone & _).
  destruct (TermiosSet _ f k0) as [e1 k1]. cbn [fst snd] in *. subst e1.
  assert (Ha1 : Ispeed (k_attr k1 (file_fd f)) = Ispeed kt
                ∧ Ospeed (k_attr k1 (file_fd f)) = Ospeed kt
                ∧ Wz (k_attr k1 (file_fd f)) = Wz kt)
    by (rewrite Hst1; repeat split).
  destruct Ha1 as (Hin1 & Hout1 & Hwz1).
  unfold FileWrite.
  set (k2 := logged _ k1).
  assert (Hi2 : k_ioctl k2 = k_ioctl k) by exact Hi1.
  assert (Hf2 : k_fds k2 = k_fds k) by exact Hf1.
  destruct (k_write k1 (file_fd f) =? 0); [|apply Hfinish; assumption].
  pose proof (readLoop_frame f (len pbuf) 0 pbuf k2) as (Hi3 & Hf3 & Ha3).
  destruct (readLoop (len pbuf) 0 f pbuf k2) as [[e pbuf'] k3].
  cbn [fst snd] in *. rewrite Hi2 in Hi3. rewrite Hf2 in Hf3.
  assert (Ha3' : k_attr k3 (file_fd f) = k_attr k1 (file_fd f))
    by (rewrite Ha3; reflexivity).
  rewrite <- Ha3' in Hin1, Hout1, Hwz1.
  destruct e as [j|j|]; [| |]; try (apply Hfinish; assumption).
  destruct (sliceTo pbuf' (j + 1)); apply Hfinish; assumption.
Qed.

Lemma GetPass_restores_attributes_witness :
  let k' := (GetPass "Password: " (mkFile 0 "/dev/tty") (mkSlice [0; 0; 0; 0] 4) demoKernel).2 in
  (Attr (mkFile 0 "/dev/tty") k').1 = (Attr (mkFile 0 "/dev/tty") demoKernel).1
  ∧ k_fds k' = k_fds demoKernel.
Proof.
  destruct (GetPass_restores_attributes "Password: " (mkFile 0 "/dev/tty")
              (mkSlice [0; 0; 0; 0] 4) demoKernel eq_refl eq_refl)
    as (Hattr & _ & Hfds).
  split; assumption.
Defined.

(** The loop, through bytes that do not end the line: they are stored, the
    reads are made, and the loop goes on behind them. *)
Lemma readLoop_prefix (f : File) (cs : list Z) :
  forall (n i : nat) (pbuf : Slice) (k : Kernel) (rest : list (Z + Z)),
    Forall inLine cs ->
    k_input k = (inl <$> cs) ++ rest ->
    exists k1,
      readLoop (length cs + n) i f pbuf k =
        readLoop n (i + length cs) f
                 (mkSlice (stored i cs (arr pbuf)) (len pbuf)) k1
      ∧ k_input k1 = rest
      ∧ k_ioctl k1 = k_ioctl k
      ∧ k_trace k1 = replicate (length cs) (EvRead (file_fd f)) ++ k_trace k.
Proof.
  induction cs as [|c cs IH]; intros n i pbuf k rest Hcs Hin.
  - exists k. cbn [length Nat.add stored replicate app].
    rewrite Nat.add_0_r. destruct pbuf; auto.
  - apply Forall_cons_1 in Hcs as [[Hc10 Hc13] Hcs].
    cbn [length Nat.add readLoop]. unfold bind at 1, FileRead at 1.
    rewrite Hin. cbn [fmap list_fmap app].
    destruct (Z.eqb_spec c 10) as [?|_]; [contradiction|].
    destruct (Z.eqb_spec c 13) as [?|_]; [contradiction|].
    cbn [orb].
    destruct (IH n (S i) (store pbuf i c)
                 (withInput ((inl <$> cs) ++ rest)
                            (logged (EvRead (file_fd f)) k)) rest Hcs eq_refl)
      as (k1 & Hrun & Hin1 & Hioc & Htr).
    exists k1. rewrite Hrun. cbn [store arr len stored] in *.
    replace (i + S (length cs))%nat with (S i + length cs)%nat by lia.
    split; [reflexivity|].
    split; [assumption|]. split; [assumption|].
    rewrite Htr. cbn [k_trace withInput logged].
    rewrite (replicate_S_end (length cs)), <- app_assoc. reflexivity.
Qed.



Lemma GetPass_buffer_full_witness :
  (GetPass "Password: " (mkFile 0 "/dev/tty") (mkSlice [0; 0; 5] 2) demoKernel).1
  = (Returned (None, Some (ErrorString "ran out of bufferspace")),
     mkSlice [0; 0; 0] 2).
Proof.
  apply (GetPass_buffer_full "Password: " (mkFile 0 "/dev/tty") (mkSlice [0; 0; 5] 2)
           demoKernel [97; 98] [inl 99; inl 10] eq_refl eq_refl eq_refl
           ltac:(cbn; lia) eq_refl
           ltac:(repeat constructor; discriminate) eq_refl).
Defined.

(** [GetPass] on a file that is not a terminal: the error of [Attr] is
    returned, and nothing else happens: no prompt is written, nothing is
    read, the buffer is as it was, and the TCGETS of [Attr] is the only call
    made. *)
Theorem GetPass_not_a_tty (prompt : string) (f : File) (pbuf : Slice) (k : Kernel) :
  (Isatty f k).1 = false ->
  GetPass prompt f pbuf k =
    ((Returned (None, Some (Errno (k_ioctl k TCGETS (file_fd f)))), pbuf),
     logged (EvIoctl TCGETS (Some (file_fd f))) k).
Proof.
  unfold Isatty, GetPass, Attr, bind, ioctl, ret. cbn [fst snd k_attr logged].
  destruct (k_ioctl k TCGETS (file_fd f) =? 0); [discriminate|].
  reflexivity.
Qed.

(** A kernel for which descriptor 0 is not a terminal (ENOTTY). *)
Lemma GetPass_not_a_tty_witness :
  let k := mkKernel (k_fds demoKernel) (k_open demoKernel) (k_close demoKernel)
                    (fun _ _ => 25) (k_write demoKernel) (k_attr demoKernel)
                    (k_ptn demoKernel) (k_input demoKernel) [] in
  (GetPass "Password: " (mkFile 0 "/dev/tty") (mkSlice [0; 0] 2) k).1
  = (Returned (None, Some (Errno 25)), mkSlice [0; 0] 2).
Proof.
  intros k.
  rewrite (GetPass_not_a_tty "Password: " (mkFile 0 "/dev/tty") (mkSlice [0; 0] 2) k eq_refl).
  reflexivity.
Defined.

Lemma clearbuf_within_length_aux (a : list Z) (n : nat) :
  (n ≤ length a)%nat ->
  length (clearbuf (mkSlice a n)) = length a
  ∧ take n (clearbuf (mkSlice a n)) = replicate n 0.
Proof.
  intros Hn. rewrite clearbuf_zeroes by assumption. split.
  - rewrite length_app, length_replicate, length_drop. lia.
  - rewrite take_app_length' by (symmetry; apply length_replicate).
    reflexivity.
Qed.

(** What the read loop keeps: the bytes stored so far do not end a line,
    the buffer keeps its length and capacity, a line ends before the buffer
    is full, and within the capacity no slice expression is out of range. *)
Lemma readLoop_inv (f : File) (n : nat) :
  forall (i : nat) (pbuf : Slice) (k : Kernel),
    (i + n = len pbuf)%nat ->
    (len pbuf ≤ cap pbuf)%nat ->
    Forall inLine (take i (arr pbuf)) ->
    let r := (readLoop n i f pbuf k).1 in
    len r.2 = len pbuf
    ∧ cap r.2 = cap pbuf
    ∧ match r.1 with
      | Line j => (j < len pbuf)%nat ∧ Forall inLine (take j (arr r.2))
      | Full j => j = len pbuf
      | OutOfRange => False
      end.
Proof.
  induction n as [|n IH]; intros i pbuf k Hin Hcap Hpre; cbn zeta.
  - cbn. repeat split. lia.
  - cbn [readLoop]. unfold bind, FileRead.
    assert (Hzero : forall k1,
              let r := (readLoop n (S i) f
                          (store (mkSlice (clearbuf (mkSlice (arr pbuf) (i + 1)))
                                          (len pbuf)) i 0) k1).1 in
              len r.2 = len pbuf ∧ cap r.2 = cap pbuf
              ∧ match r.1 with
                | Line j => (j < len pbuf)%nat ∧ Forall inLine (take j (arr r.2))
                | Full j => j = len pbuf
                | OutOfRange => False
                end).
    { intros k1.
      assert (Hi : (i + 1 ≤ length (arr pbuf))%nat) by (unfold cap in Hcap; lia).
      specialize (IH (S i) (store (mkSlice (clearbuf (mkSlice (arr pbuf) (i + 1)))
                                           (len pbuf)) i 0) k1).
      unfold cap in *. cbn [store arr len] in *.
      rewrite length_insert in IH.
      rewrite (proj1 (clearbuf_within_length_aux _ _ Hi)) in IH.
      apply IH; [lia|lia|].
      rewrite take_insert_lt by lia.
      replace (S i) with (i + 1)%nat by lia.
      rewrite (proj2 (clearbuf_within_length_aux _ _ Hi)).
      apply Forall_insert; [|split; discriminate].
      apply Forall_replicate. split; discriminate. }
    destruct (k_input k) as [|[c|e] rest].
    + unfold sliceTo. destruct (Nat.leb_spec (i + 1) (cap pbuf)) as [_|?]; [|lia].
      apply Hzero.
    + destruct (Z.eqb_spec c 10) as [Hc10|Hc10];
        [cbn [orb ret fst snd]; repeat split; [lia|assumption]|].
      destruct (Z.eqb_spec c 13) as [Hc13|Hc13];
        [cbn [orb ret fst snd]; repeat split; [lia|assumption]|].
      cbn [orb].
      specialize (IH (S i) (store pbuf i c)
                     (withInput rest (logged (EvRead (file_fd f)) k))).
      unfold cap in *. cbn [store arr len] in *.
      rewrite length_insert in IH.
      apply IH; [lia|lia|].
      rewrite (take_S_r _ i c) by (apply list_lookup_insert_eq; lia).
      rewrite take_insert_ge by lia.
      apply Forall_app. split; [assumption|].
      repeat constructor; assumption.
    + unfold sliceTo. destruct (Nat.leb_spec (i + 1) (cap pbuf)) as [_|?]; [|lia].
      apply Hzero.
Qed.

(** Every way [GetPass] can end once the terminal has answered the ioctls
    and taken the prompt, whatever is read and whichever reads fail:
    - a password with a nil error, shorter than the buffer, without line
      terminator, which is the start of the buffer;
    - the error "ran out of bufferspace" with a nil slice, only for a buffer
      with spare capacity, whose bytes are then all zero;
    - a panic, only for a buffer without spare capacity.
    A failed read is never reported. *)
Theorem GetPass_outcomes (prompt : string) (f : File) (pbuf : Slice) (k : Kernel) :
  k_ioctl k TCGETS (file_fd f) = 0 ->
  k_ioctl k TCSETS (file_fd f) = 0 ->
  k_write k (file_fd f) = 0 ->
  (len pbuf ≤ cap pbuf)%nat ->
  let r := (GetPass prompt f pbuf k).1 in
  match r.1 with
  | Returned (Some pw, None) =>
      (length pw < len pbuf)%nat
      ∧ Forall inLine pw
      ∧ pw = take (length pw) (arr r.2)
  | Returned (None, Some e) =>
      e = ErrorString "ran out of bufferspace"
      ∧ (len pbuf < cap pbuf)%nat
      ∧ take (len pbuf) (arr r.2) = replicate (len pbuf) 0
  | Returned _ => False
  | Panicked _ => cap pbuf = len pbuf
  end.
Proof.
  intros Hget Hset Hwrite Hcap r. subst r.
  destruct (GetPass prompt f pbuf k) as [[o b] kf] eqn:Hrun.
  cbn [fst snd]. revert Hrun.
  unfold GetPass, bind. rewrite Attr_ok by assumption.
  set (t := setOspeed _ _). set (k0 := logged _ k).
  destruct (TermiosSet_ok (setLflag (Lflag t &^ ECHO) t) f k0 Hset)
    as (Hnone & _ & Hwr & _).
  destruct (TermiosSet _ f k0) as [e1 k1]. cbn [fst snd] in *. subst e1.
  unfold FileWrite. rewrite Hwr. unfold k0 at 1. cbn [k_write logged].
  rewrite Hwrite. cbn [Z.eqb].
  set (k2 := logged _ k1).
  pose proof (readLoop_inv f (len pbuf) 0 pbuf k2 eq_refl Hcap
                ltac:(rewrite take_0; constructor)) as Hinv.
  cbn zeta in Hinv.
  destruct (readLoop (len pbuf) 0 f pbuf k2) as [[e pbuf'] k3].
  cbn [fst snd] in Hinv. destruct Hinv as (Hlen' & Hcap' & He).
  destruct e as [j|j|]; [| |contradiction].
  - destruct He as [Hj Hpw].
    destruct (TermiosSet t f k3) as [? ?]. cbn [ret].
    intros [= <- <- <-].
    assert (Hjl : length (take j (arr pbuf')) = j).
    { rewrite length_take. unfold cap in *. lia. }
    rewrite Hjl. repeat split; assumption.
  - subst j. unfold sliceTo. rewrite Hcap', <- Hlen'.
    destruct (Nat.leb_spec (len pbuf' + 1) (cap pbuf)) as [Hle|Hgt].
    + destruct (TermiosSet t f k3) as [? ?]. cbn [ret].
      intros [= <- <- <-]. cbn [arr].
      split; [reflexivity|]. split; [lia|].
      assert (Hi : (len pbuf' + 1 ≤ length (arr pbuf'))%nat)
        by (unfold cap in *; lia).
      replace (len pbuf') with (len pbuf' `min` (len pbuf' + 1))%nat at 1 by lia.
      rewrite <- take_take.
      rewrite (proj2 (clearbuf_within_length_aux _ _ Hi)).
      rewrite take_replicate. f_equal. lia.
    + destruct (TermiosSet t f k3) as [? ?]. cbn [ret].
      intros [= <- <- <-]. lia.
Qed.

(** A terminal at end of file, and a buffer with one byte of spare
    capacity: the reads fail, and what is reported is the full buffer. *)
Lemma GetPass_outcomes_witness :
  let k := withInput [] demoKernel in
  let r := (GetPass "Password: " (mkFile 0 "/dev/tty") (mkSlice [1; 2; 3] 2) k).1 in
  r.1 = Returned (None, Some (ErrorString "ran out of bufferspace"))
  ∧ take 2 (arr r.2) = replicate 2 0.
Proof.
  intros k r.
  pose proof (GetPass_outcomes "Password: " (mkFile 0 "/dev/tty") (mkSlice [1; 2; 3] 2) k
                eq_refl eq_refl eq_refl ltac:(cbn; lia)) as H.
  cbn zeta in H. fold r in H.
  assert (Hr : r.1 = Returned (None, Some (ErrorString "ran out of bufferspace")))
    by reflexivity.
  rewrite Hr in H. destruct H as (_ & _ & Hz).
  split; [exact Hr|exact Hz].
Defined.

(** A read that fails in the middle of a line does not end [GetPass]: the
    bytes typed so far are wiped, reading goes on, and the password returned
    with a nil error has a zero for each of them and for the failed read,
    followed by the bytes read afterwards. *)
Theorem GetPass_failed_read_wipes (prompt : string) (f : File) (pbuf : Slice)
    (k : Kernel) (cs ds : list Z) (e tm : Z) (rest : list (Z + Z)) :
  k_ioctl k TCGETS (file_fd f) = 0 ->
  k_ioctl k TCSETS (file_fd f) = 0 ->
  k_write k (file_fd f) = 0 ->
  (len pbuf ≤ cap pbuf)%nat ->
  (length cs + 1 + length ds < len pbuf)%nat ->
  Forall inLine cs -> Forall inLine ds -> endsLine tm ->
  k_input k = (inl <$> cs) ++ inr e :: (inl <$> ds) ++ inl tm :: rest ->
  (GetPass prompt f pbuf k).1.1 =
    Returned (Some (replicate (S (length cs)) 0 ++ ds), None).
Proof.
  intros Hget Hset Hwrite Hcap Hlen Hcs Hds Htm Hin.
  unfold GetPass, bind. rewrite Attr_ok by assumption.
  set (t := setOspeed _ _). set (k0 := logged _ k).
  destruct (TermiosSet_ok (setLflag (Lflag t &^ ECHO) t) f k0 Hset)
    as (Hnone & _ & Hwr & Hinp).
  destruct (TermiosSet _ f k0) as [e1 k1]. cbn [fst snd] in *. subst e1.
  unfold FileWrite. rewrite Hwr. unfold k0 at 1. cbn [k_write logged].
  rewrite Hwrite. cbn [Z.eqb].
  set (k2 := logged _ k1).
  assert (Hin2 : k_input k2 =
                 (inl <$> cs) ++ inr e :: (inl <$> ds) ++ inl tm :: rest)
    by (unfold k2; cbn [k_input logged]; rewrite Hinp; exact Hin).
  set (c := length cs) in *. set (d := length ds) in *.
  (* the bytes before the failed read *)
  destruct (readLoop_prefix f cs (S (d + S (len pbuf - c - d - 2))) 0 pbuf k2
              _ Hcs Hin2) as (k3 & Hrun & Hin3 & _ & _).
  fold c in Hrun.
  replace (c + S (d + S (len pbuf - c - d - 2)))%nat with (len pbuf)
    in Hrun by lia.
  rewrite Hrun. cbn [Nat.add].
  (* the failed read *)
  cbn [readLoop]. unfold bind at 1, FileRead at 1. rewrite Hin3.
  unfold sliceTo, cap. cbn [arr len]. rewrite length_stored.
  destruct (Nat.leb_spec (c + 1) (length (arr pbuf))) as [Hle|?];
    [|unfold cap in Hcap; lia].
  unfold store at 1. cbn [arr len].
  set (A := <[c := 0]> (clearbuf _)).
  assert (HlenA : length A = length (arr pbuf)).
  { unfold A. rewrite length_insert.
    rewrite (proj1 (clearbuf_within_length_aux _ _
               ltac:(rewrite length_stored; exact Hle))).
    apply length_stored. }
  assert (HtakeA : take (S c) A = replicate (S c) 0).
  { unfold A. rewrite take_insert_lt by lia.
    replace (S c) with (c + 1)%nat by lia.
    rewrite (proj2 (clearbuf_within_length_aux _ _
               ltac:(rewrite length_stored; exact Hle))).
    apply insert_replicate. }
  (* the bytes behind it, and the end of the line *)
  destruct (readLoop_prefix f ds (S (len pbuf - c - d - 2)) (S c)
              (mkSlice A (len pbuf))
              (withInput ((inl <$> ds) ++ inl tm :: rest)
                         (logged (EvRead (file_fd f)) k3))
              (inl tm :: rest) Hds eq_refl) as (k4 & Hrun2 & Hin4 & _ & _).
  fold d in Hrun2. rewrite Hrun2.
  cbn [readLoop arr len]. unfold bind, FileRead. rewrite Hin4.
  assert (Hterm : (tm =? 10) || (tm =? 13) = true).
  { destruct Htm as [-> | ->]; reflexivity. }
  rewrite Hterm. cbn [ret arr].
  destruct (TermiosSet t f _) as [? ?]. cbn [fst].
  rewrite stored_spec by (fold d; unfold cap in Hcap; lia).
  fold d. rewrite HtakeA, app_assoc.
  rewrite take_app_length'
    by (rewrite length_app, length_replicate; fold d; lia).
  reflexivity.
Qed.

Lemma GetPass_failed_read_wipes_witness :
  let k := withInput [inl 97; inr 4; inl 98; inl 13] demoKernel in
  (GetPass "Password: " (mkFile 0 "/dev/tty") (mkSlice [0; 0; 0; 0] 4) k).1.1
  = Returned (Some [0; 0; 98], None).
Proof.
  intros k.
  apply (GetPass_failed_read_wipes "Password: " (mkFile 0 "/dev/tty")
           (mkSlice [0; 0; 0; 0] 4) k [97] [98] 4 13 []
           eq_refl eq_refl eq_refl ltac:(cbn; lia) ltac:(cbn; lia)
           ltac:(repeat constructor; discriminate)
           ltac:(repeat constructor; discriminate)
           ltac:(right; reflexivity) eq_refl).
Defined.

(** ** PTSNumber and PTSName without master *)

(** A PTY whose master is nil: [PTSNumber] and [PTSName] do not fail in any
    other way than by the error of the ioctl on an invalid descriptor
    (EBADF), with number 0 and an empty path; no descriptor is touched. *)
Theorem PTSName_no_master (p : PTY) (k : Kernel) :
  Master p = None ->
  (PTSNumber p k).1 = (0, Some (Errno EBADF))
  ∧ (PTSName p k).1 = (""%string, Some (Errno EBADF))
  ∧ k_fds (PTSName p k).2 = k_fds k
  ∧ k_trace (PTSName p k).2 = EvIoctl TIOCGPTN None :: k_trace k.
Proof.
  intros Hm. unfold PTSName, PTSNumber, bind, ioctl, Fd. rewrite Hm.
  repeat split.
Qed.

Lemma PTSName_no_master_witness :
  (PTSName (mkPTY None None) demoKernel).1 = (""%string, Some (Errno 9)).
Proof.
  apply (PTSName_no_master (mkPTY None None) demoKernel eq_refl).
Defined.

(** ** OpenPTY, its first error *)

(** [OpenPTY] makes its calls in order — open the multiplexer, unlock, ask
    for the number, open the slave — and stops at the first that fails. Its
    error is the error of that call: for an ioctl the errno itself, for an
    open the [PathError] of [os.OpenFile] with the operation, the path and
    the errno. No later call is made but the close of the master, and it
    succeeds exactly when all four succeed. *)
Theorem OpenPTY_first_error (k : Kernel) :
  let m := newFd (dom (k_fds k)) in
  let s := newFd (dom (<[m := "/dev/ptmx"%string]> (k_fds k))) in
  let path := slavePath (k_ptn k m) in
  let e1 := k_open k "/dev/ptmx" in
  let e2 := k_ioctl k TIOCSPTLCK m in
  let e3 := k_ioctl k TIOCGPTN m in
  let e4 := k_open k path in
  let opened := EvOpen "/dev/ptmx" 0 :: k_trace k in
  let unlocked := EvIoctl TIOCSPTLCK (Some m) :: opened in
  let named := EvIoctl TIOCGPTN (Some m) :: unlocked in
  (OpenPTY k).1 =
    (if negb (e1 =? 0) then (None, Some (PathError "open" "/dev/ptmx" (Errno e1)))
     else if negb (e2 =? 0) then (None, Some (Errno e2))
     else if negb (e3 =? 0) then (None, Some (Errno e3))
     else if negb (e4 =? 0) then (None, Some (PathError "open" path (Errno e4)))
     else (Some (mkPTY (Some (mkFile m "/dev/ptmx")) (Some (mkFile s path))),
           None))
  ∧ k_trace (OpenPTY k).2 =
      (if negb (e1 =? 0) then EvOpen "/dev/ptmx" e1 :: k_trace k
       else if negb (e2 =? 0) then EvClose m :: unlocked
       else if negb (e3 =? 0) then EvClose m :: named
       else if negb (e4 =? 0) then EvClose m :: EvOpen path e4 :: named
       else EvOpen path 0 :: named).
Proof.
  cbn zeta.
  destruct (OpenPTY_run k) as (k' & Hrun & _ & _ & Htr).
  cbn zeta in Hrun, Htr. rewrite Hrun. cbn [fst snd].
  split; [reflexivity|exact Htr].
Qed.

(** The text of the error when the multiplexer cannot be opened, as
    [os.OpenFile] words it. *)
Example OpenPTY_no_ptmx :
  let k := mkKernel (k_fds demoKernel) (fun _ => 2) (k_close demoKernel)
                    (k_ioctl demoKernel) (k_write demoKernel)
                    (k_attr demoKernel) (k_ptn demoKernel)
                    (k_input demoKernel) [] in
  (OpenPTY k).1 = (None, Some (PathError "open" "/dev/ptmx" (Errno 2)))
  ∧ Error (fun _ => "no such file or directory"%string)
          (PathError "open" "/dev/ptmx" (Errno 2))
    = "open /dev/ptmx: no such file or directory"%string.
Proof. split; reflexivity. Qed.

Section CloseMore.
Variable strerror : Z -> string.

Lemma Close_fds (p : PTY) (k : Kernel) :
  k_fds (Close strerror p k).2
  = withoutSide (Master p) (withoutSide (Slave p) (k_fds k)).
Proof.
  destruct p as [m s]. unfold Close, bind, withoutSide. cbn [Slave Master].
  destruct s as [s|], m as [m|]; cbn [ret].
  - pose proof (FileClose_fds s k) as [Hs _].
    destruct (FileClose s k) as [se k1]. cbn [snd] in Hs.
    pose proof (FileClose_fds m k1) as [Hm _].
    destruct (FileClose m k1) as [me k2]. cbn [snd] in Hm.
    rewrite <- Hs, <- Hm. destruct se, me; reflexivity.
  - pose proof (FileClose_fds s k) as [Hs _].
    destruct (FileClose s k) as [se k1]. cbn [snd] in Hs.
    rewrite <- Hs. destruct se; reflexivity.
  - pose proof (FileClose_fds m k) as [Hm _].
    destruct (FileClose m k) as [me k2]. cbn [snd] in Hm.
    rewrite <- Hm. destruct me; reflexivity.
  - reflexivity.
Qed.

(** Whatever the two closes report, after [Close] neither descriptor of the
    PTY is open, and every other descriptor is as it was before. *)
Theorem Close_releases (p : PTY) (k : Kernel) (fd : nat) :
  k_fds (Close strerror p k).2 !! fd =
    if bool_decide (Fd (Slave p) = Some fd ∨ Fd (Master p) = Some fd)
    then None else k_fds k !! fd.
Proof.
  rewrite Close_fds. destruct p as [m s]. unfold Fd. cbn [Slave Master].
  destruct s as [[s]|], m as [[m]|];
    cbn [withoutSide file_fd fmap option_fmap option_map];
    case_bool_decide as H;
    repeat match goal with
    | |- context [delete ?i _ !! ?j] =>
        destruct (decide (i = j)) as [->|?];
        [rewrite lookup_delete_eq|rewrite lookup_delete_ne by assumption]
    end; try reflexivity;
    try (destruct H as [[=]|[=]]; congruence);
    try (exfalso; apply H; auto; fail).
Qed.

(** A second [Close] of a PTY with both sides makes no call and releases
    nothing: it reports both files as closed already, each in the words of
    [os.File.Close], with the name of the file. *)
Theorem Close_twice (p : PTY) (s m : File) (k : Kernel) :
  Slave p = Some s -> Master p = Some m ->
  Close strerror p (Close strerror p k).2 =
    (Some (ErrorString
             (("Slave: close " +:+ file_name s +:+ ": file already closed")
              +:+ " "
              +:+ ("Master: close " +:+ file_name m +:+ ": file already closed"))),
     (Close strerror p k).2).
Proof.
  intros Hs Hm.
  pose proof (Close_fds p k) as Hfds.
  rewrite Hs, Hm in Hfds. cbn [withoutSide] in Hfds.
  set (k1 := (Close strerror p k).2) in *.
  assert (Hs1 : k_fds k1 !! file_fd s = None).
  { rewrite Hfds.
    destruct (decide (file_fd m = file_fd s)) as [->|Hne].
    - apply lookup_delete_eq.
    - rewrite lookup_delete_ne by assumption. apply lookup_delete_eq. }
  assert (Hm1 : k_fds k1 !! file_fd m = None)
    by (rewrite Hfds; apply lookup_delete_eq).
  unfold Close, bind. rewrite Hs, Hm.
  rewrite (FileClose_closed s k1 Hs1), (FileClose_closed m k1 Hm1).
  reflexivity.
Qed.

(** [OpenPTY] and then [Close]: the descriptors open are those open before
    [OpenPTY], whatever the closes report, and the result of [Close] is nil
    exactly when the kernel reports no error for the two closes. *)
Theorem OpenPTY_then_Close (k k' : Kernel) (p : PTY) :
  OpenPTY k = ((Some p, None), k') ->
  let m := newFd (dom (k_fds k)) in
  let s := newFd (dom (<[m := "/dev/ptmx"%string]> (k_fds k))) in
  k_fds (Close strerror p k').2 = k_fds k
  ∧ ((Close strerror p k').1 = None <-> k_close k s = 0 ∧ k_close k m = 0).
Proof.
  intros Hopen m s.
  destruct (OpenPTY_run k) as (k1 & Hrun & Hclose & Hfds & _).
  cbn zeta in Hrun, Hfds. fold m in Hrun, Hfds. fold s in Hrun, Hfds.
  rewrite Hopen in Hrun.
  destruct (k_open k "/dev/ptmx" =? 0); cbn [negb andb] in *; [|discriminate].
  destruct (k_ioctl k TIOCSPTLCK m =? 0); cbn [negb andb] in *; [|discriminate].
  destruct (k_ioctl k TIOCGPTN m =? 0); cbn [negb andb] in *; [|discriminate].
  destruct (k_open k (slavePath (k_ptn k m)) =? 0); cbn [negb andb] in *;
    [|discriminate].
  injection Hrun as -> <-.
  assert (Hm : k_fds k !! m = None) by apply newFd_lookup.
  assert (Hs : <[m := "/dev/ptmx"%string]> (k_fds k) !! s = None)
    by apply newFd_lookup.
  unfold Close, bind. cbn [Slave Master].
  rewrite (FileClose_open (mkFile s (slavePath (k_ptn k m))) k'
             (slavePath (k_ptn k m)))
    by (rewrite Hfds; apply lookup_insert_eq).
  cbn [file_fd].
  rewrite (FileClose_open (mkFile m "/dev/ptmx") _ "/dev/ptmx").
  2:{ cbn [k_fds withFds logged file_fd]. rewrite Hfds, delete_insert_eq.
      rewrite delete_id by assumption. apply lookup_insert_eq. }
  cbn [file_fd k_close k_fds withFds logged]. rewrite Hclose.
  split.
  - destruct (k_close k s =? 0), (k_close k m =? 0); cbn [ret snd k_fds withFds];
      rewrite Hfds, (delete_insert_eq _ s), (delete_id _ s) by assumption;
      rewrite delete_insert_eq; apply delete_id, Hm.
  - destruct (Z.eqb_spec (k_close k s) 0) as [Hcs|Hcs],
             (Z.eqb_spec (k_close k m) 0) as [Hcm|Hcm]; cbn [ret fst];
      (split; [intros H; try discriminate H; auto|intros [? ?]; try contradiction]).
    reflexivity.
Qed.

End CloseMore.

Lemma Close_twice_witness :
  let p := mkPTY (Some (mkFile 1 "/dev/ptmx")) (Some (mkFile 2 "/dev/pts/7")) in
  let k := (OpenPTY demoKernel).2 in
  let k1 := (Close (fun _ => "errno"%string) p k).2 in
  (OpenPTY demoKernel).1.1 = Some p
  ∧ (Close (fun _ => "errno"%string) p k).1 = None
  ∧ (Close (fun _ => "errno"%string) p k1).1
    = Some (ErrorString "Slave: close /dev/pts/7: file already closed Master: close /dev/ptmx: file already closed")
  ∧ k_trace (Close (fun _ => "errno"%string) p k1).2 = k_trace k1.
Proof.
  intros p k k1.
  split; [reflexivity|]. split; [reflexivity|].
  unfold k1.
  rewrite (Close_twice (fun _ => "errno"%string) p
             (mkFile 2 "/dev/pts/7") (mkFile 1 "/dev/ptmx") k eq_refl eq_refl).
  split; reflexivity.
Defined.

Lemma OpenPTY_then_Close_witness :
  let r := OpenPTY demoKernel in
  r.1 = (Some (mkPTY (Some (mkFile 1 "/dev/ptmx")) (Some (mkFile 2 "/dev/pts/7"))), None)
  ∧ k_fds (Close (fun _ => "errno"%string)
             (mkPTY (Some (mkFile 1 "/dev/ptmx")) (Some (mkFile 2 "/dev/pts/7"))) r.2).2
    = k_fds demoKernel.
Proof.
  intros r. split; [reflexivity|].
  apply (OpenPTY_then_Close (fun _ => "errno"%string) demoKernel r.2
           (mkPTY (Some (mkFile 1 "/dev/ptmx")) (Some (mkFile 2 "/dev/pts/7")))).
  reflexivity.
Defined.

(** ** testraw and testcook *)

(** No terminal state passes both checks of [termis_test.go]: [testraw]
    wants BRKINT clear, [testcook] wants it set. *)
Theorem testraw_excludes_testcook (tr : Termios) :
  testraw tr = true -> testcook tr = false.
Proof.
  unfold testraw, testcook. intros Hraw.
  repeat (apply andb_true_iff in Hraw as [Hraw ?]).
  apply Z.eqb_eq in Hraw.
  assert (Hbit : Z.testbit (Iflag tr) 1 = false).
  { apply (f_equal (fun x => Z.testbit x 1)) in Hraw.
    rewrite Z.land_spec, Z.bits_0 in Hraw.
    change (Z.testbit rawIflagMask 1) with true in Hraw.
    rewrite andb_true_r in Hraw. exact Hraw. }
  destruct (Z.eqb_spec (Iflag tr .& cookIflagMask)
              (BRKINT + IGNPAR + ISTRIP + ICRNL + IXON)) as [Heq|_];
    [|reflexivity].
  apply (f_equal (fun x => Z.testbit x 1)) in Heq.
  rewrite Z.land_spec, Hbit in Heq. discriminate Heq.
Qed.

Lemma testraw_excludes_testcook_witness :
  testraw (Raw zeroTermios) = true ∧ testcook (Raw zeroTermios) = false.
Proof.
  split; [reflexivity|].
  apply (testraw_excludes_testcook (Raw zeroTermios)). reflexivity.
Defined.
